(** * seller-apis: stock and price synchronisation for two marketplaces

    A shallow embedding of [seller.py] (the Ozon client) and [market.py]
    (the Yandex Market client), and the properties of their payload
    construction, chunking, pagination and feed download.

    Conventions of the embedding.
    - A Python [str] is a [string]: the sequence of the bytes of its UTF-8
      encoding.  The source only ever looks for ASCII characters (['.'],
      the digits, ['>'], the sign, the underscore, white space) and no byte
      of a multi-byte UTF-8 sequence is an ASCII byte, so splitting on ['.']
      and deleting the non-digits act on the bytes exactly as they act on
      the code points.
    - A spreadsheet cell is a [PyVal]: [None], a [str] or an [int].
    - A function that may raise returns a [result]; a function that mutates
      its argument returns the final contents of that argument as well. *)

From Stdlib Require Import ZArith String Ascii List Lia.
From Stdlib Require Import DecimalString DecimalZ DecimalPos.
From stdpp Require Import gmap strings list.

Open Scope string_scope.
Open Scope Z_scope.
Open Scope list_scope.

(** ** Python values, exceptions and the built-ins the source calls *)

Module Py.

Inductive exn : Type :=
| ValueError
| TypeError
| AttributeError
| FileNotFoundError
| RequestException
| BadZipFile.

Inductive result (A : Type) : Type :=
| Ok (a : A)
| Raise (e : exn).
Arguments Ok {A} a.
Arguments Raise {A} e.

#[export] Instance result_ret : MRet result := fun A a => Ok a.
#[export] Instance result_bind : MBind result := fun A B k r =>
  match r with
  | Ok a => k a
  | Raise e => Raise e
  end.

Definition is_ok {A} (r : result A) : bool :=
  match r with Ok _ => true | Raise _ => false end.

(** The values a cell of the supplier spreadsheet can hold. *)
Inductive PyVal : Type :=
| VNone
| VStr (s : string)
| VInt (z : Z).

(** A row of the spreadsheet: a [dict] from column name to cell. *)
Abbreviation Watch := (gmap string PyVal).

(** [d.get(k)]: the value, [None] when the key is absent. *)
Definition get (d : Watch) (k : string) : PyVal :=
  match d !! k with
  | Some v => v
  | None => VNone
  end.

(** [str(v)] *)
Definition str (v : PyVal) : string :=
  match v with
  | VNone => "None"
  | VStr s => s
  | VInt z => NilZero.string_of_int (Z.to_int z)
  end.

(** [not v]: Python truthiness of [None], strings and integers. *)
Definition falsy (v : PyVal) : bool :=
  match v with
  | VNone => true
  | VStr s => String.eqb s ""
  | VInt z => z =? 0
  end.

Definition is_digit (c : ascii) : bool :=
  let n := nat_of_ascii c in ((48 <=? n) && (n <=? 57))%nat.

(** The ASCII white space [int] skips around a literal: TAB, LF, VT, FF,
    CR and the space. *)
Definition is_space (c : ascii) : bool :=
  let n := nat_of_ascii c in
  (((9 <=? n) && (n <=? 13)) || (n =? 32))%nat.

Definition digit_value (c : ascii) : Z := Z.of_nat (nat_of_ascii c) - 48.

Fixpoint lstrip (s : string) : string :=
  match s with
  | "" => ""
  | String c s' => if is_space c then lstrip s' else s
  end.

Fixpoint rstrip (s : string) : string :=
  match s with
  | "" => ""
  | String c s' =>
      let r := rstrip s' in
      if is_space c && String.eqb r "" then "" else String c r
  end.

Definition strip (s : string) : string := rstrip (lstrip s).

(** The digits of an integer literal: decimal digits, a single underscore
    allowed between two of them.  [acc] is the value read so far, [n] the
    number of digits read so far and [after_digit] says whether the
    previous character was a digit.  Returns the value and the number of
    digits. *)
Fixpoint scan_digits (s : string) (acc : Z) (n : nat) (after_digit : bool)
  : option (Z * nat) :=
  match s with
  | "" => if after_digit then Some (acc, n) else None
  | String c s' =>
      if is_digit c then scan_digits s' (10 * acc + digit_value c) (S n) true
      else if Ascii.eqb c "_"
           then if after_digit then scan_digits s' acc n false else None
           else None
  end.

(** [sys.int_info.default_max_str_digits]: CPython refuses to convert a
    string of more digits than this. *)
Definition max_str_digits : nat := 4300.

(** [int(s)] for a [str] in base 10: surrounding white space is dropped,
    then an optional sign, then the digits.  Decimal digits and white
    space outside ASCII, which CPython also accepts, are not modelled:
    such strings are rejected here. *)
Definition int_of_str (s : string) : result Z :=
  let t := strip s in
  let '(neg, body) :=
    match t with
    | String c r =>
        if Ascii.eqb c "-" then (true, r)
        else if Ascii.eqb c "+" then (false, r)
        else (false, t)
    | "" => (false, t)
    end in
  match scan_digits body 0 0 false with
  | None => Raise ValueError
  | Some (v, n) =>
      if (max_str_digits <? n)%nat then Raise ValueError
      else Ok (if neg then - v else v)
  end.

(** [int(v)] *)
Definition int (v : PyVal) : result Z :=
  match v with
  | VNone => Raise TypeError
  | VStr s => int_of_str s
  | VInt z => Ok z
  end.

(** [x in l] *)
Definition contains (x : string) (l : list string) : bool :=
  bool_decide (x ∈ l).

(** [l.remove(x)]: deletes the first occurrence of [x]; raises
    [ValueError] when there is none. *)
Fixpoint remove (x : string) (l : list string) : result (list string) :=
  match l with
  | [] => Raise ValueError
  | y :: l' =>
      if String.eqb x y then Ok l'
      else match remove x l' with
           | Ok r => Ok (y :: r)
           | Raise e => Raise e
           end
  end.

End Py.

Import Py.

(** ** Code shared by the two clients

    [market.py] imports [price_conversion] and [divide] from the seller
    module, and its [create_stocks] and [create_prices] run the same loops
    as the seller's, building a different dictionary for each entry.  The
    loops are written once, over the constructor of an entry. *)

(** Column names of the supplier spreadsheet. *)
Definition col_code : string := "Код".
Definition col_quantity : string := "Количество".
Definition col_price : string := "Цена".

(** The quantity rule inside [create_stocks] (seller.py 196-202,
    market.py 172-178): [count] is [str] of the cell, and the fall-through
    branch calls [int] on the cell itself. *)
Definition stock_count (quantity : PyVal) : result Z :=
  let count := str quantity in
  if String.eqb count ">10" then Ok 100
  else if String.eqb count "1" then Ok 0
  else int quantity.

(** [price.split(".")[0]]: the text before the first dot, all of it when
    there is none. *)
Fixpoint split_dot_head (s : string) : string :=
  match s with
  | "" => ""
  | String c s' => if Ascii.eqb c "." then "" else String c (split_dot_head s')
  end.

(** [re.sub("[^0-9]", "", s)]: delete what is not one of the ten digits. *)
Fixpoint sub_non_digits (s : string) : string :=
  match s with
  | "" => ""
  | String c s' =>
      if is_digit c then String c (sub_non_digits s') else sub_non_digits s'
  end.

(** seller.py 238-254.  Only a [str] has a [split] method: on any other
    cell the attribute lookup raises. *)
Definition price_conversion (price : PyVal) : result string :=
  match price with
  | VStr s => Ok (sub_non_digits (split_dot_head s))
  | VNone | VInt _ => Raise AttributeError
  end.

(** [range(start, stop, step)] as the list it iterates over; the length is
    computed the way CPython does. *)
Definition range (start stop step : Z) : result (list Z) :=
  if step =? 0 then Raise ValueError
  else
    let len :=
      if 0 <? step
      then (if start <? stop then (stop - start - 1) / step + 1 else 0)
      else (if stop <? start then (start - stop - 1) / (- step) + 1 else 0) in
    Ok (map (fun k => start + Z.of_nat k * step) (seq 0 (Z.to_nat len))).

(** [lst[i:j]]: both bounds are first brought into [0 .. len(lst)], a
    negative one counting from the end. *)
Definition slice {A} (lst : list A) (i j : Z) : list A :=
  let len := Z.of_nat (length lst) in
  let clamp k := if k <? 0 then Z.max 0 (k + len) else Z.min k len in
  take (Z.to_nat (clamp j - clamp i)) (drop (Z.to_nat (clamp i)) lst).

(** seller.py 257-272, as the list of the chunks the generator yields
    (every caller writes [list(divide(...))]). *)
Definition divide {A} (lst : list A) (n : Z) : result (list (list A)) :=
  idx ← range 0 (Z.of_nat (length lst)) n;
  mret (map (fun i => slice lst i (i + n)) idx).

Section Payloads.
(** [E] is the type of a stock entry, [P] of a price entry. *)
Context {E P : Type}.
Variable stock_entry : string -> Z -> E.
Variable price_entry : string -> PyVal -> result P.

(** The first loop of [create_stocks].  [offer_ids] is the caller's list,
    which [remove] changes in place: the loop returns its final contents
    beside the outcome, also when a quantity fails to convert. *)
Fixpoint scan_remnants (watch_remnants : list Watch) (stocks : list E)
    (offer_ids : list string) : result (list E) * list string :=
  match watch_remnants with
  | [] => (Ok stocks, offer_ids)
  | watch :: rest =>
      let code := str (get watch col_code) in
      if contains code offer_ids then
        match stock_count (get watch col_quantity) with
        | Raise e => (Raise e, offer_ids)
        | Ok stock =>
            match remove code offer_ids with
            | Raise e => (Raise e, offer_ids)
            | Ok offer_ids' =>
                scan_remnants rest (stocks ++ [stock_entry code stock])
                  offer_ids'
            end
        end
      else scan_remnants rest stocks offer_ids
  end.

(** Both loops of [create_stocks]: the matched entries, then a zero entry
    for every identifier left in the list. *)
Definition build_stocks (watch_remnants : list Watch)
    (offer_ids : list string) : result (list E) * list string :=
  match scan_remnants watch_remnants [] offer_ids with
  | (Ok stocks, unmatched) =>
      (Ok (stocks ++ map (fun offer_id => stock_entry offer_id 0) unmatched),
       unmatched)
  | (Raise e, unmatched) => (Raise e, unmatched)
  end.

(** The loop of [create_prices]; it only reads [offer_ids]. *)
Fixpoint build_prices (watch_remnants : list Watch)
    (offer_ids : list string) : result (list P) :=
  match watch_remnants with
  | [] => Ok []
  | watch :: rest =>
      let code := str (get watch col_code) in
      if contains code offer_ids then
        price ← price_entry code (get watch col_price);
        prices ← build_prices rest offer_ids;
        mret (price :: prices)
      else build_prices rest offer_ids
  end.
End Payloads.

(** ** [while True:] loops around a request

    One turn of the loop either leaves it with a result or goes on with a
    new state; the turn number selects the response of the server.  [None]
    means that the loop is still running after [fuel] turns. *)

Inductive outcome (St Res : Type) : Type :=
| Break (r : Res)
| Continue (s : St).
Arguments Break {St Res} r.
Arguments Continue {St Res} s.

Fixpoint while_true {St Res} (body : nat -> St -> outcome St Res)
    (fuel call : nat) (s : St) : option Res :=
  match fuel with
  | O => None
  | S fuel' =>
      match body call s with
      | Break r => Some r
      | Continue s' => while_true body fuel' (S call) s'
      end
  end.

(** The state in which the loop begins turn [call + k], when it gets that
    far. *)
Fixpoint reach {St Res} (body : nat -> St -> outcome St Res)
    (call k : nat) (s : St) : option St :=
  match k with
  | O => Some s
  | S k' =>
      match body call s with
      | Break _ => None
      | Continue s' => reach body (S call) k' s'
      end
  end.

(** ** seller.py: the Ozon client *)

Module Seller.

(** An element of ["items"] in the answer of [/v2/product/list]. *)
Record Product := { offer_id : string }.

(** The ["result"] of one answer, as [get_offer_ids] reads it. *)
Record Page := { items : list Product; total : PyVal; last_id : PyVal }.

(** [{"offer_id": ..., "stock": ...}] *)
Record Stock := { stock_offer_id : string; stock : Z }.

Record Price := {
  auto_action_enabled : string;
  currency_code : string;
  price_offer_id : string;
  old_price : string;
  price : string
}.

(** [total == len(product_list)]: an integer compares by value, anything
    else is different from an integer. *)
Definition eq_len (total : PyVal) (n : nat) : bool :=
  match total with
  | VInt z => z =? Z.of_nat n
  | VNone | VStr _ => false
  end.

(** One turn of the loop of [get_offer_ids] (lines 73-78).  The state is
    [(last_id, product_list)]; [get_product_list call last_id] is the
    answer of the server to the request number [call]. *)
Definition get_offer_ids_turn
    (get_product_list : nat -> PyVal -> result Page)
    (call : nat) (st : PyVal * list Product)
  : outcome (PyVal * list Product) (result (list Product)) :=
  let '(sent_last_id, product_list) := st in
  match get_product_list call sent_last_id with
  | Raise e => Break (Raise e)
  | Ok some_prod =>
      let product_list := product_list ++ items some_prod in
      if eq_len (total some_prod) (length product_list)
      then Break (Ok product_list)
      else Continue (last_id some_prod, product_list)
  end.

Definition get_offer_ids
    (get_product_list : nat -> PyVal -> result Page) (fuel : nat)
  : option (result (list string)) :=
  match while_true (get_offer_ids_turn get_product_list) fuel 0%nat
          (VStr "", []) with
  | None => None
  | Some (Raise e) => Some (Raise e)
  | Some (Ok product_list) => Some (Ok (map offer_id product_list))
  end.

(** What [download_stock] depends on: the body the supplier's server
    sends (after [raise_for_status]), the members [zipfile] finds in it,
    and the rows [pandas] reads from a spreadsheet. *)
Record Feed := {
  session_get : result string;
  zip_members : string -> result (list (string * string));
  read_excel : string -> result (list Watch)
}.

(** The files of the working directory, by name. *)
Abbreviation Files := (gmap string string).

Definition excel_file : string := "ostatki.xls".

(** [archive.extractall(".")] *)
Definition extractall (members : list (string * string)) (fs : Files)
  : Files :=
  foldl (fun fs m => <[m.1 := m.2]> fs) fs members.

(** Lines 160-174; returns the working directory it leaves behind. *)
Definition download_stock (feed : Feed) (fs : Files)
  : result (list Watch) * Files :=
  match session_get feed with
  | Raise e => (Raise e, fs)
  | Ok content =>
      match zip_members feed content with
      | Raise e => (Raise e, fs)
      | Ok members =>
          let fs := extractall members fs in
          match fs !! excel_file with
          | None => (Raise FileNotFoundError, fs)
          | Some sheet =>
              match read_excel feed sheet with
              | Raise e => (Raise e, fs)
              | Ok watch_remnants =>
                  (Ok watch_remnants, delete excel_file fs)
              end
          end
      end
  end.

Definition stock_entry (code : string) (n : Z) : Stock :=
  {| stock_offer_id := code; stock := n |}.

Definition price_entry (code : string) (cell : PyVal) : result Price :=
  p ← price_conversion cell;
  mret {| auto_action_enabled := "UNKNOWN"; currency_code := "RUB";
          price_offer_id := code; old_price := "0"; price := p |}.

(** Lines 193-207. *)
Definition create_stocks (watch_remnants : list Watch)
    (offer_ids : list string) : result (list Stock) * list string :=
  build_stocks stock_entry watch_remnants offer_ids.

(** Lines 224-235. *)
Definition create_prices (watch_remnants : list Watch)
    (offer_ids : list string) : result (list Price) :=
  build_prices price_entry watch_remnants offer_ids.

(** The payloads [main] uploads (lines 331 and 334): one list object
    [offer_ids] goes to [create_stocks] and then to [create_prices]. *)
Definition main_payloads (watch_remnants : list Watch)
    (offer_ids : list string) : result (list Stock * list Price) :=
  let '(stocks, offer_ids) := create_stocks watch_remnants offer_ids in
  stocks ← stocks;
  prices ← create_prices watch_remnants offer_ids;
  mret (stocks, prices).

End Seller.

(** ** market.py: the Yandex Market client *)

Module Market.

(** An element of ["offerMappingEntries"]: [offer.shopSku]. *)
Record Entry := { shopSku : string }.

(** One answer: the entries and [paging.nextPageToken]. *)
Record Page := { offerMappingEntries : list Entry; nextPageToken : PyVal }.

Record Item := { count : Z; type : string; updatedAt : string }.

Record Stock := { sku : string; warehouseId : string; items : list Item }.

Record PriceValue := { value : Z; currencyId : string }.

Record Price := { id : string; price : PriceValue }.

(** One turn of the loop of [get_offer_ids] (lines 140-144); the state is
    [(page, product_list)]. *)
Definition get_offer_ids_turn
    (get_product_list : nat -> PyVal -> result Page)
    (call : nat) (st : PyVal * list Entry)
  : outcome (PyVal * list Entry) (result (list Entry)) :=
  let '(page, product_list) := st in
  match get_product_list call page with
  | Raise e => Break (Raise e)
  | Ok some_prod =>
      let product_list := product_list ++ offerMappingEntries some_prod in
      let page := nextPageToken some_prod in
      if falsy page then Break (Ok product_list)
      else Continue (page, product_list)
  end.

Definition get_offer_ids
    (get_product_list : nat -> PyVal -> result Page) (fuel : nat)
  : option (result (list string)) :=
  match while_true (get_offer_ids_turn get_product_list) fuel 0%nat
          (VStr "", []) with
  | None => None
  | Some (Raise e) => Some (Raise e)
  | Some (Ok product_list) => Some (Ok (map shopSku product_list))
  end.

Definition stock_entry (warehouse_id date : string) (code : string) (n : Z)
  : Stock :=
  {| sku := code; warehouseId := warehouse_id;
     items := [ {| count := n; type := "FIT"; updatedAt := date |} ] |}.

(** Lines 168-207.  [utcnow k] is the text [isoformat] gives for the
    [k]-th reading of the clock, already cut to the second; [clock] counts
    the readings made so far and is returned advanced. *)
Definition create_stocks (utcnow : nat -> string) (clock : nat)
    (watch_remnants : list Watch) (offer_ids : list string)
    (warehouse_id : string)
  : result (list Stock) * list string * nat :=
  let date := (utcnow clock ++ "Z")%string in
  (build_stocks (stock_entry warehouse_id date) watch_remnants offer_ids,
   S clock).

Definition price_entry (code : string) (cell : PyVal) : result Price :=
  p ← price_conversion cell;
  v ← int_of_str p;
  mret {| id := code; price := {| value := v; currencyId := "RUR" |} |}.

(** Lines 224-240. *)
Definition create_prices (watch_remnants : list Watch)
    (offer_ids : list string) : result (list Price) :=
  build_prices price_entry watch_remnants offer_ids.

End Market.

(** ** Vocabulary of the statements *)

(** The characters of a string. *)
Definition chars (s : string) : list ascii := list_ascii_of_string s.



(** How many times [x] occurs in [l]. *)
Definition occurrences (x : string) (l : list string) : nat :=
  length (filter (fun y => y = x) l).

(** The product code of a supplier record as both loops compare it. *)
Definition code_of (watch : Watch) : string := str (get watch col_code).

(** A supplier record with text cells. *)
Definition row (code quantity price : string) : Watch :=
  <[col_code := VStr code]>
    (<[col_quantity := VStr quantity]> (<[col_price := VStr price]> ∅)).

(** The ten ASCII digits. *)
Definition ascii_digits : list ascii := chars "0123456789".


(** The number of chunks [divide] makes of a list of [len] elements: the
    length of [range(0, len, n)] for a positive [n]. *)
Definition chunk_count (len n : Z) : nat :=
  Z.to_nat (if 0 <? len then (len - 1) / n + 1 else 0).

(** The entry [e] was built from the record [watch]: it carries the code of
    the record and the count its quantity converts to. *)
Definition made_from {E} (entry : string -> Z -> E) (watch : Watch) (e : E)
  : Prop :=
  exists n, stock_count (get watch col_quantity) = Ok n
            /\ e = entry (code_of watch) n.

(** The shape of the entries [stocks] that [create_stocks] returns for the
    records [watch_remnants] and the listing [offer_ids], which it leaves
    as [unmatched]: first the entries built from some of the records, in
    the order of the records, then a zero entry for every identifier left,
    in the order of the listing; every identifier has as many entries as
    the listing holds copies of it. *)
Definition stocks_cover_listing {E} (entry : string -> Z -> E)
    (key : E -> string) (watch_remnants : list Watch)
    (offer_ids : list string) (stocks : list E) (unmatched : list string)
  : Prop :=
  exists matched_rows matched,
    stocks = matched ++ map (fun offer_id => entry offer_id 0) unmatched
    /\ matched_rows `sublist_of` watch_remnants
    /\ Forall2 (made_from entry) matched_rows matched
    /\ unmatched `sublist_of` offer_ids
    /\ (forall o, occurrences o (map key stocks) = occurrences o offer_ids)
    /\ (NoDup offer_ids ->
        forall o, o ∈ offer_ids -> occurrences o (map key stocks) = 1%nat).

(** Which records with one code get an entry: the first ones, as many as
    the listing holds copies of the code. *)
Definition first_rows_matched {E} (entry : string -> Z -> E)
    (key : E -> string) (watch_remnants : list Watch)
    (offer_ids : list string) (stocks : list E) (unmatched : list string)
  : Prop :=
  exists matched,
    stocks = matched ++ map (fun offer_id => entry offer_id 0) unmatched
    /\ forall code,
         Forall2 (made_from entry)
           (take (occurrences code offer_ids)
              (filter (fun watch => code_of watch = code) watch_remnants))
           (filter (fun e => key e = code) matched).

(** The price entry [p] was built from the record [watch]. *)
Definition priced_from {P} (price_entry : string -> PyVal -> result P)
    (watch : Watch) (p : P) : Prop :=
  price_entry (code_of watch) (get watch col_price) = Ok p.

(** The price entries are those of the records whose code is listed, in
    the order of the records, and no others. *)
Definition prices_for_listed {P} (price_entry : string -> PyVal -> result P)
    (key : P -> string) (watch_remnants : list Watch)
    (offer_ids : list string) (prices : list P) : Prop :=
  Forall2 (priced_from price_entry)
    (filter (fun watch => code_of watch ∈ offer_ids) watch_remnants) prices
  /\ forall o, o ∈ map key prices
               <-> o ∈ offer_ids /\ o ∈ map code_of watch_remnants.

(** The Ozon loop leaves at its turn [k] with the outcome [r]: it gets to
    that turn, and there the request fails or the reported total equals
    the number of products gathered so far. *)
Definition seller_stops_at (get_product_list : nat -> PyVal -> result Seller.Page)
    (k : nat) (r : result (list string)) : Prop :=
  exists last_id product_list,
    reach (Seller.get_offer_ids_turn get_product_list) 0 k (VStr "", [])
    = Some (last_id, product_list)
    /\ match get_product_list k last_id with
       | Raise e => r = Raise e
       | Ok page =>
           let product_list := product_list ++ Seller.items page in
           Seller.eq_len (Seller.total page) (length product_list) = true
           /\ r = Ok (map Seller.offer_id product_list)
       end.

(** The Yandex Market loop leaves at its turn [k] with the outcome [r]:
    there the request fails or the next-page token is empty or absent. *)
Definition market_stops_at (get_product_list : nat -> PyVal -> result Market.Page)
    (k : nat) (r : result (list string)) : Prop :=
  exists page_token product_list,
    reach (Market.get_offer_ids_turn get_product_list) 0 k (VStr "", [])
    = Some (page_token, product_list)
    /\ match get_product_list k page_token with
       | Raise e => r = Raise e
       | Ok page =>
           falsy (Market.nextPageToken page) = true
           /\ r = Ok (map Market.shopSku
                        (product_list ++ Market.offerMappingEntries page))
       end.

(** Records and readings used as examples. *)
Definition watch_A : Watch := row "A" "5" "5'990.00 руб.".
Definition watch_A' : Watch := row "A" "7" "6'100.00 руб.".
Definition watch_B : Watch := row "B" ">10" "199.99 руб.".

(** A clock that shows a different second at every reading. *)
Definition ticking (k : nat) : string :=
  match k with
  | O => "2024-05-01T10:00:00"
  | 1%nat => "2024-05-01T10:00:01"
  | _ => "2024-05-01T10:00:02"
  end.

(** Servers used as examples.  The first two never let the loops go: one
    product and a total of zero on every page; a token on every page. *)
Definition seller_stuck (call : nat) (last_id : PyVal) : result Seller.Page :=
  Ok {| Seller.items := [ {| Seller.offer_id := "A" |} ];
        Seller.total := VInt 0;
        Seller.last_id := VStr "A" |}.

Definition market_stuck (call : nat) (page : PyVal) : result Market.Page :=
  Ok {| Market.offerMappingEntries := [ {| Market.shopSku := "A" |} ];
        Market.nextPageToken := VStr "next" |}.

(** A catalogue of three products served in two pages. *)
Definition seller_two_pages (call : nat) (last_id : PyVal)
  : result Seller.Page :=
  match call with
  | O => Ok {| Seller.items := [ {| Seller.offer_id := "A" |};
                                 {| Seller.offer_id := "B" |} ];
               Seller.total := VInt 3; Seller.last_id := VStr "B" |}
  | _ => Ok {| Seller.items := [ {| Seller.offer_id := "C" |} ];
               Seller.total := VInt 3; Seller.last_id := VStr "" |}
  end.

Definition market_two_pages (call : nat) (page : PyVal)
  : result Market.Page :=
  match call with
  | O => Ok {| Market.offerMappingEntries := [ {| Market.shopSku := "A" |};
                                               {| Market.shopSku := "B" |} ];
               Market.nextPageToken := VStr "p2" |}
  | _ => Ok {| Market.offerMappingEntries := [ {| Market.shopSku := "C" |} ];
               Market.nextPageToken := VNone |}
  end.

(** An empty catalogue. *)
Definition seller_empty (call : nat) (last_id : PyVal) : result Seller.Page :=
  Ok {| Seller.items := []; Seller.total := VInt 0; Seller.last_id := VStr "" |}.

Definition market_empty (call : nat) (page : PyVal) : result Market.Page :=
  Ok {| Market.offerMappingEntries := []; Market.nextPageToken := VStr "" |}.

(** Two feeds: a good archive, and one whose spreadsheet [pandas] cannot
    read. *)
Definition feed_good : Seller.Feed :=
  {| Seller.session_get := Ok "zip";
     Seller.zip_members := fun _ => Ok [("ostatki.xls", "sheet")];
     Seller.read_excel := fun _ => Ok [watch_A; watch_B] |}.

Definition feed_unreadable : Seller.Feed :=
  {| Seller.session_get := Ok "zip";
     Seller.zip_members := fun _ => Ok [("ostatki.xls", "garbage")];
     Seller.read_excel := fun _ => Raise ValueError |}.

(** ** The pages a catalogue loop receives

    The first [k] answers of the server from request number [call] on,
    each request carrying the cursor [next] reads in the answer before it;
    the walk ends early at a failed request. *)
Fixpoint walk {Pg} (next : Pg -> PyVal)
    (get_product_list : nat -> PyVal -> result Pg)
    (k call : nat) (cursor : PyVal) : list Pg :=
  match k with
  | O => []
  | S k' =>
      match get_product_list call cursor with
      | Raise _ => []
      | Ok page =>
          page :: walk next get_product_list k' (S call) (next page)
      end
  end.

(** ** Uploads

    [for batch in batches: update(batch)]: the updates run on the state of
    the world one after the other, and the first that raises ends the
    loop. *)
Fixpoint for_each {A W} (update : A -> W -> result unit * W)
    (batches : list A) (w : W) : result unit * W :=
  match batches with
  | [] => (Ok tt, w)
  | batch :: rest =>
      match update batch w with
      | (Ok _, w') => for_each update rest w'
      | (Raise e, w') => (Raise e, w')
      end
  end.

(** How a run of [main] ends: with an exception nobody caught, or by
    returning, after one of the handlers caught [caught] or none had to.
    The three handlers differ only in the text they print. *)
Inductive exit : Type :=
| Uncaught (e : exn)
| Returned (caught : option exn).

(** The uploading half of seller.py. *)
Module SellerRun.

(** A write request, by the list its body carries. *)
Inductive Request : Type :=
| PostPrices (prices : list Seller.Price)
| PostStocks (stocks : list Seller.Stock).

(** The world [main] acts on: the write requests issued so far and the
    files of the working directory. *)
Record World := { requests : list Request; files : Seller.Files }.

(** The shop: its catalogue pages, and its answer to the write request
    number [k] (after [raise_for_status] and [json]). *)
Record Shop := {
  get_product_list : nat -> PyVal -> result Seller.Page;
  respond : nat -> Request -> result unit
}.

Definition post (shop : Shop) (request : Request) (w : World)
  : result unit * World :=
  (respond shop (length (requests w)) request,
   {| requests := requests w ++ [request]; files := files w |}).

(** Lines 103-111; the callers drop the decoded answer. *)
Definition update_price (shop : Shop) (prices : list Seller.Price)
  : World -> result unit * World :=
  post shop (PostPrices prices).

(** Lines 132-140. *)
Definition update_stocks (shop : Shop) (stocks : list Seller.Stock)
  : World -> result unit * World :=
  post shop (PostStocks stocks).

(** Lines 292-296: the body of the coroutine. *)
Definition upload_prices (shop : Shop) (fuel : nat)
    (watch_remnants : list Watch) (w : World)
  : option (result (list Seller.Price) * World) :=
  match Seller.get_offer_ids (get_product_list shop) fuel with
  | None => None
  | Some (Raise e) => Some (Raise e, w)
  | Some (Ok offer_ids) =>
      match Seller.create_prices watch_remnants offer_ids with
      | Raise e => Some (Raise e, w)
      | Ok prices =>
          match divide prices 1000 with
          | Raise e => Some (Raise e, w)
          | Ok batches =>
              match for_each (update_price shop) batches w with
              | (Raise e, w') => Some (Raise e, w')
              | (Ok _, w') => Some (Ok prices, w')
              end
          end
      end
  end.

(** Lines 316-321: the body of the coroutine. *)
Definition upload_stocks (shop : Shop) (fuel : nat)
    (watch_remnants : list Watch) (w : World)
  : option (result (list Seller.Stock * list Seller.Stock) * World) :=
  match Seller.get_offer_ids (get_product_list shop) fuel with
  | None => None
  | Some (Raise e) => Some (Raise e, w)
  | Some (Ok offer_ids) =>
      match Seller.create_stocks watch_remnants offer_ids with
      | (Raise e, _) => Some (Raise e, w)
      | (Ok stocks, _) =>
          match divide stocks 100 with
          | Raise e => Some (Raise e, w)
          | Ok batches =>
              match for_each (update_stocks shop) batches w with
              | (Raise e, w') => Some (Raise e, w')
              | (Ok _, w') =>
                  let not_empty :=
                    filter (fun stock => Seller.stock stock <> 0) stocks in
                  Some (Ok (not_empty, stocks), w')
              end
          end
      end
  end.

(** The [try] block of [main], lines 329-336. *)
Definition main_try (shop : Shop) (feed : Seller.Feed) (fuel : nat)
    (w : World) : option (result unit * World) :=
  match Seller.get_offer_ids (get_product_list shop) fuel with
  | None => None
  | Some (Raise e) => Some (Raise e, w)
  | Some (Ok offer_ids) =>
      match Seller.download_stock feed (files w) with
      | (Raise e, fs) => Some (Raise e, {| requests := requests w; files := fs |})
      | (Ok watch_remnants, fs) =>
          let w := {| requests := requests w; files := fs |} in
          match Seller.create_stocks watch_remnants offer_ids with
          | (Raise e, _) => Some (Raise e, w)
          | (Ok stocks, offer_ids) =>
              match divide stocks 100 with
              | Raise e => Some (Raise e, w)
              | Ok batches =>
                  match for_each (update_stocks shop) batches w with
                  | (Raise e, w) => Some (Raise e, w)
                  | (Ok _, w) =>
                      match Seller.create_prices watch_remnants offer_ids with
                      | Raise e => Some (Raise e, w)
                      | Ok prices =>
                          match divide prices 900 with
                          | Raise e => Some (Raise e, w)
                          | Ok batches =>
                              Some (for_each (update_price shop) batches w)
                          end
                      end
                  end
              end
          end
      end
  end.

(** Lines 324-342, once the two settings are read: whatever the [try]
    block raises is caught by one of the handlers, which print and let
    [main] return. *)
Definition main (shop : Shop) (feed : Seller.Feed) (fuel : nat) (w : World)
  : option (exit * World) :=
  match main_try shop feed fuel w with
  | None => None
  | Some (Ok _, w') => Some (Returned None, w')
  | Some (Raise e, w') => Some (Returned (Some e), w')
  end.

End SellerRun.

(** The uploading half of market.py. *)
Module MarketRun.

(** A write request: the campaign it addresses and the list it carries. *)
Inductive Request : Type :=
| PutStocks (campaign_id : string) (skus : list Market.Stock)
| PostPrices (campaign_id : string) (offers : list Market.Price).

(** The world [main] acts on: the write requests issued so far, the files
    of the working directory, and the number of clock readings made. *)
Record World := {
  requests : list Request;
  files : Seller.Files;
  clock : nat
}.

(** The market: the catalogue pages of each campaign, its answer to the
    write request number [k], and its clock. *)
Record Shop := {
  get_product_list : string -> nat -> PyVal -> result Market.Page;
  respond : nat -> Request -> result unit;
  utcnow : nat -> string
}.

Definition send (shop : Shop) (request : Request) (w : World)
  : result unit * World :=
  (respond shop (length (requests w)) request,
   {| requests := requests w ++ [request]; files := files w;
      clock := clock w |}).

(** Lines 69-82. *)
Definition update_stocks (shop : Shop) (campaign_id : string)
    (stocks : list Market.Stock) : World -> result unit * World :=
  send shop (PutStocks campaign_id stocks).

(** Lines 103-115. *)
Definition update_price (shop : Shop) (campaign_id : string)
    (prices : list Market.Price) : World -> result unit * World :=
  send shop (PostPrices campaign_id prices).

(** What calling an [async def] function gives: a coroutine object, whose
    body runs only when it is awaited. *)
Definition coroutine (A : Type) : Type := World -> option (result A * World).

(** Lines 262-266. *)
Definition upload_prices (shop : Shop) (fuel : nat)
    (watch_remnants : list Watch) (campaign_id : string)
  : coroutine (list Market.Price) := fun w =>
  match Market.get_offer_ids (get_product_list shop campaign_id) fuel with
  | None => None
  | Some (Raise e) => Some (Raise e, w)
  | Some (Ok offer_ids) =>
      match Market.create_prices watch_remnants offer_ids with
      | Raise e => Some (Raise e, w)
      | Ok prices =>
          match divide prices 500 with
          | Raise e => Some (Raise e, w)
          | Ok batches =>
              match for_each (update_price shop campaign_id) batches w with
              | (Raise e, w') => Some (Raise e, w')
              | (Ok _, w') => Some (Ok prices, w')
              end
          end
      end
  end.

(** The stock half of one campaign in [main] (lines 310-314, 319-323),
    followed by the call of [upload_prices], which is not awaited: the
    coroutine it returns is dropped and its body never runs. *)
Definition sync_campaign (shop : Shop) (fuel : nat)
    (watch_remnants : list Watch) (campaign_id warehouse_id : string)
    (w : World) : option (result unit * World) :=
  match Market.get_offer_ids (get_product_list shop campaign_id) fuel with
  | None => None
  | Some (Raise e) => Some (Raise e, w)
  | Some (Ok offer_ids) =>
      let '(stocks, _, clock') :=
        Market.create_stocks (utcnow shop) (clock w) watch_remnants
          offer_ids warehouse_id in
      let w := {| requests := requests w; files := files w;
                  clock := clock' |} in
      match stocks with
      | Raise e => Some (Raise e, w)
      | Ok stocks =>
          match divide stocks 2000 with
          | Raise e => Some (Raise e, w)
          | Ok batches =>
              match for_each (update_stocks shop campaign_id) batches w with
              | (Raise e, w) => Some (Raise e, w)
              | (Ok _, w) =>
                  let _never_awaited :=
                    upload_prices shop fuel watch_remnants campaign_id in
                  Some (Ok tt, w)
              end
          end
      end
  end.

(** Lines 299-331, once the five settings are read.  [download_stock] is
    called before the [try] block: what it raises is not caught. *)
Definition main (shop : Shop) (feed : Seller.Feed) (fuel : nat)
    (campaign_fbs_id campaign_dbs_id warehouse_fbs_id warehouse_dbs_id : string)
    (w : World) : option (exit * World) :=
  match Seller.download_stock feed (files w) with
  | (Raise e, fs) =>
      Some (Uncaught e,
            {| requests := requests w; files := fs; clock := clock w |})
  | (Ok watch_remnants, fs) =>
      let w := {| requests := requests w; files := fs; clock := clock w |} in
      match sync_campaign shop fuel watch_remnants campaign_fbs_id
              warehouse_fbs_id w with
      | None => None
      | Some (Raise e, w) => Some (Returned (Some e), w)
      | Some (Ok _, w) =>
          match sync_campaign shop fuel watch_remnants campaign_dbs_id
                  warehouse_dbs_id w with
          | None => None
          | Some (Raise e, w) => Some (Returned (Some e), w)
          | Some (Ok _, w) => Some (Returned None, w)
          end
      end
  end.

End MarketRun.

(** Feeds and shops used as examples. *)
Definition feed_with_readme : Seller.Feed :=
  {| Seller.session_get := Ok "zip";
     Seller.zip_members :=
       fun _ => Ok [("ostatki.xls", "sheet"); ("readme.txt", "hello")];
     Seller.read_excel := fun _ => Raise ValueError |}.

Definition feed_without_sheet : Seller.Feed :=
  {| Seller.session_get := Ok "zip";
     Seller.zip_members := fun _ => Ok [("readme.txt", "hello")];
     Seller.read_excel := fun _ => Ok [watch_A] |}.

(** A shop of three offers that accepts every write, one that refuses the
    second write, and a market with a one-page catalogue per campaign. *)
Definition shop_accepting : SellerRun.Shop :=
  {| SellerRun.get_product_list := seller_two_pages;
     SellerRun.respond := fun _ _ => Ok tt |}.

Definition shop_refusing : SellerRun.Shop :=
  {| SellerRun.get_product_list := seller_two_pages;
     SellerRun.respond :=
       fun k _ => if (k =? 1)%nat then Raise RequestException else Ok tt |}.

Definition market_accepting : MarketRun.Shop :=
  {| MarketRun.get_product_list := fun _ => market_two_pages;
     MarketRun.respond := fun _ _ => Ok tt;
     MarketRun.utcnow := ticking |}.

Definition world_empty : SellerRun.World :=
  {| SellerRun.requests := []; SellerRun.files := ∅ |}.

Definition market_world_empty : MarketRun.World :=
  {| MarketRun.requests := []; MarketRun.files := ∅; MarketRun.clock := 0 |}.

Definition world_after_one : SellerRun.World :=
  {| SellerRun.requests := [SellerRun.PostPrices []];
     SellerRun.files := ∅ |}.

(** * Properties *)

(** ** Reading integers *)

Lemma digit_not_space c : is_digit c = true -> is_space c = false.
Proof.
  unfold is_digit, is_space. intros H.
  apply andb_true_iff in H as [H1 H2].
  apply Nat.leb_le in H1. apply Nat.leb_le in H2.
  apply orb_false_iff. split.
  - apply andb_false_iff. right. apply Nat.leb_gt. lia.
  - apply Nat.eqb_neq. lia.
Qed.

Lemma lstrip_head c s : is_space c = false -> lstrip (String c s) = String c s.
Proof. intros H. simpl. now rewrite H. Qed.

Lemma rstrip_no_space s :
  Forall (fun c => is_space c = false) (chars s) -> rstrip s = s.
Proof.
  induction s as [|c s IH]; intros H; [reflexivity|].
  inversion H as [|? ? Hc Hs]; subst. simpl.
  rewrite (IH Hs), Hc. reflexivity.
Qed.

Lemma strip_no_space s :
  Forall (fun c => is_space c = false) (chars s) -> strip s = s.
Proof.
  intros H. unfold strip.
  destruct s as [|c s]; [reflexivity|].
  rewrite lstrip_head by (now inversion H).
  now apply rstrip_no_space.
Qed.






Lemma digit_not_mark c :
  is_digit c = true ->
  Ascii.eqb c "-" = false /\ Ascii.eqb c "+" = false /\ Ascii.eqb c "_" = false.
Proof.
  intros H. repeat split.
  all: match goal with |- Ascii.eqb ?x ?m = false =>
         destruct (Ascii.eqb_spec x m) as [->|]; [vm_compute in H|]; congruence
       end.
Qed.

Lemma digits_no_space s :
  Forall (fun c => is_digit c = true) (chars s) ->
  Forall (fun c => is_space c = false) (chars s).
Proof. induction 1; constructor; auto using digit_not_space. Qed.

(** What [int] does with a literal that begins with a digit and holds no
    white space. *)
Lemma int_of_str_digit_head c s :
  is_digit c = true ->
  Forall (fun c => is_space c = false) (chars s) ->
  int_of_str (String c s)
  = match scan_digits (String c s) 0 0 true with
    | None => Raise ValueError
    | Some (v, n) =>
        if (max_str_digits <? n)%nat then Raise ValueError else Ok v
    end.
Proof.
  intros Hc Hs. unfold int_of_str.
  rewrite strip_no_space
    by (constructor; [now apply digit_not_space | exact Hs]).
  destruct (digit_not_mark c Hc) as (-> & -> & _).
  cbn [scan_digits]. rewrite Hc. reflexivity.
Qed.

















(** ** Prices *)

Lemma is_digit_spec c : is_digit c = bool_decide (c ∈ ascii_digits).
Proof. destruct c as [[] [] [] [] [] [] [] []]; vm_compute; reflexivity. Qed.


Lemma chars_sub_non_digits s :
  chars (sub_non_digits s) = filter (fun c => c ∈ ascii_digits) (chars s).
Proof.
  induction s as [|c s IH]; [reflexivity|].
  cbn [sub_non_digits chars list_ascii_of_string]. rewrite filter_cons.
  rewrite is_digit_spec. fold (chars s).
  destruct (decide (c ∈ ascii_digits)) as [Hc|Hc].
  - rewrite bool_decide_eq_true_2 by assumption.
    cbn [chars list_ascii_of_string]. f_equal. exact IH.
  - rewrite bool_decide_eq_false_2 by assumption. exact IH.
Qed.

Lemma split_dot_head_none s :
  "."%char ∉ chars s -> split_dot_head s = s.
Proof.
  induction s as [|c s IH]; [reflexivity|].
  cbn [chars list_ascii_of_string split_dot_head]. intros H.
  apply not_elem_of_cons in H as [Hc Hs].
  destruct (Ascii.eqb_spec c "."); [congruence|]. f_equal. now apply IH.
Qed.




(** ** Chunks *)

Section Divide.
Context {A : Type}.
Implicit Types (lst : list A) (n i j : Z).

(** A slice whose lower bound lies inside the list. *)
Lemma slice_inside lst i j :
  0 <= i <= Z.of_nat (length lst) -> i <= j ->
  slice lst i j = take (Z.to_nat (j - i)) (drop (Z.to_nat i) lst).
Proof.
  intros Hi Hj. unfold slice.
  destruct (Z.ltb_spec i 0); [lia|]. destruct (Z.ltb_spec j 0); [lia|].
  rewrite (Z.min_l i) by lia.
  destruct (Z.le_ge_cases j (Z.of_nat (length lst))) as [Hle|Hge].
  - now rewrite Z.min_l by lia.
  - rewrite Z.min_r by lia.
    rewrite !take_ge; [reflexivity|..]; rewrite length_drop; lia.
Qed.

Lemma chunk_count_inside len n k :
  0 < n -> (k < chunk_count len n)%nat -> Z.of_nat k * n < len.
Proof.
  unfold chunk_count. intros Hn Hk.
  destruct (Z.ltb_spec 0 len); [|lia].
  pose proof (Z.mul_div_le (len - 1) n Hn).
  pose proof (Z.div_pos (len - 1) n). nia.
Qed.

Lemma chunk_count_covers len n :
  0 < n -> 0 <= len -> len <= Z.of_nat (chunk_count len n) * n.
Proof.
  unfold chunk_count. intros Hn Hlen.
  destruct (Z.ltb_spec 0 len); [|lia].
  pose proof (Z.mul_succ_div_gt (len - 1) n Hn).
  pose proof (Z.div_pos (len - 1) n). nia.
Qed.

(** With a positive size, chunk [k] is [lst[k*n : k*n + n]], written
    with [take] and [drop]. *)
Lemma divide_pos lst n :
  0 < n ->
  divide lst n
  = Ok (map (fun k => take (Z.to_nat n) (drop (k * Z.to_nat n) lst))
          (seq 0 (chunk_count (Z.of_nat (length lst)) n))).
Proof.
  intros Hn. unfold divide, range.
  destruct (Z.eqb_spec n 0); [lia|]. destruct (Z.ltb_spec 0 n); [|lia].
  cbn [mbind result_bind mret result_ret]. f_equal.
  rewrite Z.sub_0_r, map_map. fold (chunk_count (Z.of_nat (length lst)) n).
  apply map_ext_in. intros k Hk. apply in_seq in Hk.
  pose proof (chunk_count_inside (Z.of_nat (length lst)) n k Hn) as Hin.
  rewrite slice_inside by lia.
  f_equal; [f_equal; lia | f_equal; lia].
Qed.

Lemma concat_chunks lst (n m : nat) :
  concat (map (fun k => take n (drop (k * n) lst)) (seq 0 m))
  = take (m * n) lst.
Proof.
  induction m as [|m IH]; [reflexivity|].
  rewrite seq_S, map_app, concat_app, IH. cbn [map concat Nat.add].
  rewrite app_nil_r, take_take_drop. f_equal. lia.
Qed.

(** C3. For a chunk size of at least one, [divide] returns chunks whose
    concatenation is the list, each of at most [n] elements and each
    but the last of exactly [n]; the empty list gives no chunk. *)
Theorem C3_divide lst n :
  1 <= n ->
  exists chunks,
    divide lst n = Ok chunks
    /\ concat chunks = lst
    /\ Forall (fun c => Z.of_nat (length c) <= n) chunks
    /\ (forall k c, chunks !! k = Some c -> (S k < length chunks)%nat ->
          Z.of_nat (length c) = n)
    /\ (lst = [] -> chunks = []).
Proof.
  intros Hn. eexists. split; [apply divide_pos; lia|].
  set (m := chunk_count (Z.of_nat (length lst)) n).
  split; [|split; [|split]].
  - rewrite concat_chunks. apply take_ge.
    pose proof (chunk_count_covers (Z.of_nat (length lst)) n). nia.
  - apply Forall_forall. intros c Hc.
    apply list_elem_of_In, in_map_iff in Hc as (k & <- & _).
    rewrite length_take. lia.
  - intros k c Hk Hlast. rewrite length_map, length_seq in Hlast.
    rewrite list_lookup_fmap in Hk.
    destruct (seq 0 m !! k) as [k'|] eqn:Ek; [|discriminate].
    apply lookup_seq in Ek as [-> _]. injection Hk as <-.
    rewrite length_take, length_drop.
    pose proof (chunk_count_inside (Z.of_nat (length lst)) n (S k)).
    nia.
  - intros ->. reflexivity.
Qed.
End Divide.

Lemma C3_divide_witness :
  exists chunks,
    divide ["a"; "b"; "c"; "d"; "e"] 2 = Ok chunks
    /\ concat chunks = ["a"; "b"; "c"; "d"; "e"]
    /\ Forall (fun c => Z.of_nat (length c) <= 2) chunks
    /\ (forall k c, chunks !! k = Some c -> (S k < length chunks)%nat ->
          Z.of_nat (length c) = 2)
    /\ (["a"; "b"; "c"; "d"; "e"] = [] -> chunks = []).
Proof. apply (C3_divide ["a"; "b"; "c"; "d"; "e"] 2). lia. Defined.

(** ** Lists of identifiers *)

Lemma occurrences_perm x (l k : list string) :
  l ≡ₚ k -> occurrences x l = occurrences x k.
Proof. intros H. unfold occurrences. now rewrite H. Qed.

Lemma occurrences_cons_eq x l : occurrences x (x :: l) = S (occurrences x l).
Proof. unfold occurrences. now rewrite filter_cons_True. Qed.

Lemma occurrences_cons_ne x y l :
  y <> x -> occurrences x (y :: l) = occurrences x l.
Proof. intros H. unfold occurrences. now rewrite filter_cons_False. Qed.

Lemma occurrences_app x l k :
  occurrences x (l ++ k) = (occurrences x l + occurrences x k)%nat.
Proof. unfold occurrences. now rewrite filter_app, length_app. Qed.

Lemma occurrences_absent x l : x ∉ l -> occurrences x l = 0%nat.
Proof.
  induction l as [|y l IH]; [reflexivity|]. intros H.
  apply not_elem_of_cons in H as [Hne Hl].
  rewrite occurrences_cons_ne by congruence. now apply IH.
Qed.

Lemma occurrences_NoDup x l : NoDup l -> x ∈ l -> occurrences x l = 1%nat.
Proof.
  induction 1 as [|y l Hy Hl IH]; intros Hx; [inversion Hx|].
  destruct (decide (y = x)) as [->|Hne].
  - now rewrite occurrences_cons_eq, occurrences_absent.
  - rewrite occurrences_cons_ne by assumption. apply IH.
    apply elem_of_cons in Hx as [->|Hx]; [congruence | assumption].
Qed.

Lemma contains_true x l : contains x l = true <-> x ∈ l.
Proof. unfold contains. apply bool_decide_eq_true. Qed.

Lemma contains_false x l : contains x l = false <-> x ∉ l.
Proof. unfold contains. apply bool_decide_eq_false. Qed.

(** [remove] on an element of the list: one copy goes, the rest stays in
    place. *)
Lemma remove_elem x l :
  x ∈ l -> exists l', remove x l = Ok l' /\ l ≡ₚ x :: l' /\ l' `sublist_of` l.
Proof.
  induction l as [|y l IH]; intros H; [inversion H|]. cbn [remove].
  destruct (String.eqb_spec x y) as [->|Hne].
  - exists l. repeat split; [reflexivity | now apply sublist_cons].
  - apply elem_of_cons in H as [->|H]; [congruence|].
    destruct (IH H) as (l' & -> & Hperm & Hsub). exists (y :: l').
    repeat split.
    + rewrite Hperm. apply Permutation_swap.
    + now apply sublist_skip.
Qed.

Lemma Forall2_filter_both {A B} (R : A -> B -> Prop)
    (P : A -> Prop) (Q : B -> Prop)
    `{forall x, Decision (P x)} `{forall y, Decision (Q y)} l k :
  (forall x y, R x y -> (P x <-> Q y)) ->
  Forall2 R l k -> Forall2 R (filter P l) (filter Q k).
Proof.
  intros HPQ. induction 1 as [|x y l k Hxy Hlk IH]; [constructor|].
  rewrite !filter_cons. specialize (HPQ x y Hxy).
  destruct (decide (P x)), (decide (Q y)); try tauto. now constructor.
Qed.

(** ** Stock entries *)

Section Stocks.
Context {E : Type} (entry : string -> Z -> E) (key : E -> string).
Hypothesis key_entry : forall code n, key (entry code n) = code.

Lemma made_from_key watch e : made_from entry watch e -> key e = code_of watch.
Proof. intros (n & _ & ->). apply key_entry. Qed.

(** The first loop: what it appends, what it leaves in the listing. *)
Lemma scan_remnants_spec watch_remnants :
  forall stocks offer_ids out unmatched,
    scan_remnants entry watch_remnants stocks offer_ids = (Ok out, unmatched) ->
    exists matched_rows matched,
      out = stocks ++ matched
      /\ matched_rows `sublist_of` watch_remnants
      /\ Forall2 (made_from entry) matched_rows matched
      /\ unmatched `sublist_of` offer_ids
      /\ map key matched ++ unmatched ≡ₚ offer_ids
      /\ forall code,
           filter (fun watch => code_of watch = code) matched_rows
           = take (occurrences code offer_ids)
               (filter (fun watch => code_of watch = code) watch_remnants).
Proof.
  induction watch_remnants as [|watch rest IH];
    intros stocks offer_ids out unmatched Hrun; cbn [scan_remnants] in Hrun.
  - injection Hrun as <- <-. exists [], [].
    rewrite app_nil_r. repeat split; try constructor; try reflexivity.
    intros code. now rewrite filter_nil, take_nil.
  - fold (code_of watch) in Hrun.
    destruct (contains (code_of watch) offer_ids) eqn:Hin.
    + apply contains_true in Hin.
      destruct (stock_count (get watch col_quantity)) as [n|e] eqn:Hn;
        [|discriminate].
      destruct (remove_elem _ _ Hin) as (ids1 & Hrm & Hperm & Hsub).
      rewrite Hrm in Hrun.
      destruct (IH _ _ _ _ Hrun)
        as (rows & matched & -> & Hrows & Hmade & Hleft & Hp & Hfirst).
      exists (watch :: rows), (entry (code_of watch) n :: matched).
      split; [now rewrite <- app_assoc|].
      split; [now apply sublist_skip|].
      split; [constructor; [now exists n | assumption]|].
      split; [now transitivity ids1|].
      split.
      { cbn [map app]. rewrite key_entry, Hp. now symmetry. }
      intros code. rewrite !filter_cons.
      destruct (decide (code_of watch = code)) as [<-|Hne].
      * rewrite (occurrences_perm _ _ _ Hperm), occurrences_cons_eq.
        cbn [take]. f_equal. apply Hfirst.
      * rewrite (occurrences_perm _ _ _ Hperm), occurrences_cons_ne
          by assumption.
        apply Hfirst.
    + apply contains_false in Hin.
      destruct (IH _ _ _ _ Hrun)
        as (rows & matched & -> & Hrows & Hmade & Hleft & Hp & Hfirst).
      exists rows, matched.
      split; [reflexivity|]. split; [now apply sublist_cons|].
      repeat (split; [assumption|]).
      intros code. rewrite filter_cons.
      destruct (decide (code_of watch = code)) as [<-|Hne]; [|apply Hfirst].
      rewrite Hfirst, occurrences_absent by assumption. reflexivity.
Qed.

Lemma build_stocks_inv watch_remnants offer_ids out unmatched :
  build_stocks entry watch_remnants offer_ids = (Ok out, unmatched) ->
  exists matched,
    scan_remnants entry watch_remnants [] offer_ids = (Ok matched, unmatched)
    /\ out = matched ++ map (fun offer_id => entry offer_id 0) unmatched.
Proof.
  unfold build_stocks.
  destruct (scan_remnants entry watch_remnants [] offer_ids) as [[m|e] u];
    [|discriminate].
  intros [= <- <-]. now exists m.
Qed.

Lemma map_key_zero (l : list string) :
  map key (map (fun offer_id => entry offer_id 0) l) = l.
Proof.
  rewrite map_map. erewrite map_ext; [apply map_id|].
  intros o. apply key_entry.
Qed.

Lemma build_stocks_cover watch_remnants offer_ids out unmatched :
  build_stocks entry watch_remnants offer_ids = (Ok out, unmatched) ->
  stocks_cover_listing entry key watch_remnants offer_ids out unmatched.
Proof.
  intros H. apply build_stocks_inv in H as (m & Hscan & ->).
  apply scan_remnants_spec in Hscan
    as (rows & matched & -> & Hrows & Hmade & Hleft & Hp & _).
  cbn [app] in *.
  assert (Hocc : forall o,
    occurrences o
      (map key (matched ++ map (fun offer_id => entry offer_id 0) unmatched))
    = occurrences o offer_ids).
  { intros o. rewrite map_app, map_key_zero. now apply occurrences_perm. }
  exists rows, matched. repeat (split; [easy|]).
  intros Hnd o Ho. rewrite Hocc. now apply occurrences_NoDup.
Qed.

Lemma build_stocks_first watch_remnants offer_ids out unmatched :
  build_stocks entry watch_remnants offer_ids = (Ok out, unmatched) ->
  first_rows_matched entry key watch_remnants offer_ids out unmatched.
Proof.
  intros H. apply build_stocks_inv in H as (m & Hscan & ->).
  apply scan_remnants_spec in Hscan
    as (rows & matched & -> & Hrows & Hmade & Hleft & Hp & Hfirst).
  cbn [app]. exists matched. split; [reflexivity|].
  intros code. rewrite <- Hfirst.
  apply Forall2_filter_both; [|assumption].
  intros watch e Hwe. rewrite (made_from_key _ _ Hwe). reflexivity.
Qed.

(** Every entry comes out of the constructor of the client. *)
Lemma build_stocks_entries watch_remnants offer_ids out unmatched :
  build_stocks entry watch_remnants offer_ids = (Ok out, unmatched) ->
  Forall (fun e => exists code n, e = entry code n) out.
Proof.
  intros H. apply build_stocks_inv in H as (m & Hscan & ->).
  apply scan_remnants_spec in Hscan as (rows & matched & -> & _ & Hmade & _).
  cbn [app]. apply Forall_app. split.
  - clear -Hmade. induction Hmade as [|w e ? ? (n & _ & ->) _ IH];
      constructor; eauto.
  - apply Forall_forall. intros e He.
    apply list_elem_of_In, in_map_iff in He as (o & <- & _). eauto.
Qed.

(** The loops return as soon as every quantity converts. *)
Lemma scan_remnants_ok watch_remnants :
  Forall (fun watch => is_ok (stock_count (get watch col_quantity)) = true)
    watch_remnants ->
  forall stocks offer_ids,
    exists out unmatched,
      scan_remnants entry watch_remnants stocks offer_ids = (Ok out, unmatched).
Proof.
  induction 1 as [|watch rest Hw _ IH]; intros stocks offer_ids;
    cbn [scan_remnants]; [eauto|].
  destruct (contains (str (get watch col_code)) offer_ids) eqn:Hin; [|apply IH].
  apply contains_true in Hin.
  destruct (stock_count (get watch col_quantity)); [|discriminate].
  destruct (remove_elem _ _ Hin) as (ids1 & -> & _). apply IH.
Qed.

Lemma build_stocks_ok watch_remnants offer_ids :
  Forall (fun watch => is_ok (stock_count (get watch col_quantity)) = true)
    watch_remnants ->
  exists out unmatched,
    build_stocks entry watch_remnants offer_ids = (Ok out, unmatched).
Proof.
  intros H. unfold build_stocks.
  destruct (scan_remnants_ok _ H [] offer_ids) as (out & u & ->). eauto.
Qed.
End Stocks.

Lemma seller_key code n : Seller.stock_offer_id (Seller.stock_entry code n) = code.
Proof. reflexivity. Qed.

Lemma market_key warehouse_id date code n :
  Market.sku (Market.stock_entry warehouse_id date code n) = code.
Proof. reflexivity. Qed.

Lemma market_create_stocks_inv utcnow clock watch_remnants offer_ids
    warehouse_id r unmatched clock' :
  Market.create_stocks utcnow clock watch_remnants offer_ids warehouse_id
  = (r, unmatched, clock') ->
  build_stocks (Market.stock_entry warehouse_id (utcnow clock ++ "Z")%string)
    watch_remnants offer_ids = (r, unmatched)
  /\ clock' = S clock.
Proof. unfold Market.create_stocks. intros [= <- <-]. split; reflexivity. Qed.

(** C2, amended. When [create_stocks] returns, its entries are the ones
    built from matching supplier records, in the order of the records,
    followed by a zero entry for every identifier left unmatched, in the
    order of the listing; every offer identifier has exactly as many
    entries as the listing holds copies of it, hence exactly one when the
    listing repeats no identifier.  The call returns whenever every
    quantity converts. *)
Theorem C2_create_stocks_cover :
  (forall watch_remnants offer_ids out unmatched,
     Seller.create_stocks watch_remnants offer_ids = (Ok out, unmatched) ->
     stocks_cover_listing Seller.stock_entry Seller.stock_offer_id
       watch_remnants offer_ids out unmatched)
  /\ (forall utcnow clock watch_remnants offer_ids warehouse_id
        out unmatched clock',
        Market.create_stocks utcnow clock watch_remnants offer_ids warehouse_id
        = (Ok out, unmatched, clock') ->
        stocks_cover_listing
          (Market.stock_entry warehouse_id (utcnow clock ++ "Z")%string)
          Market.sku watch_remnants offer_ids out unmatched)
  /\ (forall watch_remnants offer_ids,
        Forall (fun watch =>
                  is_ok (stock_count (get watch col_quantity)) = true)
          watch_remnants ->
        (exists out unmatched,
           Seller.create_stocks watch_remnants offer_ids = (Ok out, unmatched))
        /\ (forall utcnow clock warehouse_id, exists out unmatched,
              Market.create_stocks utcnow clock watch_remnants offer_ids
                warehouse_id = (Ok out, unmatched, S clock))).
Proof.
  split; [|split].
  - intros ws ids out u H.
    now apply (build_stocks_cover _ _ seller_key) in H.
  - intros utcnow clock ws ids wh out u clock' H.
    apply market_create_stocks_inv in H as [H _].
    now apply (build_stocks_cover _ _ (market_key _ _)) in H.
  - intros ws ids H. split.
    + apply build_stocks_ok, H.
    + intros utcnow clock wh. unfold Market.create_stocks.
      destruct (build_stocks_ok
                  (Market.stock_entry wh (utcnow clock ++ "Z")%string)
                  ws ids H) as (out & u & ->).
      eauto.
Qed.

Lemma C2_create_stocks_cover_witness :
  stocks_cover_listing Seller.stock_entry Seller.stock_offer_id
    [watch_A; watch_B] ["A"; "B"; "C"]
    [Seller.stock_entry "A" 5; Seller.stock_entry "B" 100;
     Seller.stock_entry "C" 0]
    ["C"]
  /\ exists out unmatched,
       Seller.create_stocks [watch_A; watch_B] ["A"; "B"; "C"]
       = (Ok out, unmatched).
Proof.
  destruct C2_create_stocks_cover as (Hseller & _ & Hok). split.
  - apply (Hseller [watch_A; watch_B] ["A"; "B"; "C"]). reflexivity.
  - apply (Hok [watch_A; watch_B] ["A"; "B"; "C"]).
    repeat constructor.
Defined.

(** The listing may name an offer twice (the catalogue pages are not
    deduplicated): that offer then gets two entries, here one with the
    supplier's count and one with zero. *)
Lemma C2_counterexample :
  ~ (forall watch_remnants offer_ids out unmatched,
       Seller.create_stocks watch_remnants offer_ids = (Ok out, unmatched) ->
       forall o, o ∈ offer_ids ->
         occurrences o (map Seller.stock_offer_id out) = 1%nat).
Proof.
  intros H.
  specialize (H [watch_A] ["A"; "A"] _ _ eq_refl "A" ltac:(left)).
  vm_compute in H. discriminate H.
Qed.

(** C9, amended. Of the supplier records that carry one product code,
    the first ones get a stock entry, as many as the listing holds copies
    of the code, and every later one is skipped: only the first record
    when the code is listed once. *)
Theorem C9_first_rows_matched :
  (forall watch_remnants offer_ids out unmatched,
     Seller.create_stocks watch_remnants offer_ids = (Ok out, unmatched) ->
     first_rows_matched Seller.stock_entry Seller.stock_offer_id
       watch_remnants offer_ids out unmatched)
  /\ (forall utcnow clock watch_remnants offer_ids warehouse_id
        out unmatched clock',
        Market.create_stocks utcnow clock watch_remnants offer_ids warehouse_id
        = (Ok out, unmatched, clock') ->
        first_rows_matched
          (Market.stock_entry warehouse_id (utcnow clock ++ "Z")%string)
          Market.sku watch_remnants offer_ids out unmatched).
Proof.
  split.
  - intros ws ids out u H.
    now apply (build_stocks_first _ _ seller_key) in H.
  - intros utcnow clock ws ids wh out u clock' H.
    apply market_create_stocks_inv in H as [H _].
    now apply (build_stocks_first _ _ (market_key _ _)) in H.
Qed.

Lemma C9_first_rows_matched_witness :
  first_rows_matched Seller.stock_entry Seller.stock_offer_id
    [watch_A; watch_B; watch_A'] ["A"; "B"; "C"]
    [Seller.stock_entry "A" 5; Seller.stock_entry "B" 100;
     Seller.stock_entry "C" 0]
    ["C"].
Proof.
  apply (proj1 C9_first_rows_matched [watch_A; watch_B; watch_A']
           ["A"; "B"; "C"]).
  reflexivity.
Defined.

(** With the code listed twice, the second record with that code gets an
    entry as well. *)
Lemma C9_counterexample :
  ~ (forall watch_remnants offer_ids out unmatched,
       Seller.create_stocks watch_remnants offer_ids = (Ok out, unmatched) ->
       forall code, code ∈ offer_ids ->
       exists matched,
         out = matched
               ++ map (fun offer_id => Seller.stock_entry offer_id 0) unmatched
         /\ (length (filter (fun e => Seller.stock_offer_id e = code) matched)
             <= 1)%nat).
Proof.
  intros H.
  destruct (H [watch_A; watch_A'] ["A"; "A"]
              [Seller.stock_entry "A" 5; Seller.stock_entry "A" 7] []
              eq_refl "A" ltac:(left))
    as (matched & Hout & Hlen).
  cbn [map] in Hout. rewrite app_nil_r in Hout. subst matched.
  vm_compute in Hlen. lia.
Qed.

(** C10. One call of the Yandex Market [create_stocks] reads the clock
    once, before the loops, and stamps every entry it returns, matched or
    zero, with that reading. *)
Theorem C10_one_timestamp utcnow clock watch_remnants offer_ids warehouse_id
    out unmatched clock' :
  Market.create_stocks utcnow clock watch_remnants offer_ids warehouse_id
  = (Ok out, unmatched, clock') ->
  clock' = S clock
  /\ Forall (fun e =>
       Forall (fun item => Market.updatedAt item = (utcnow clock ++ "Z")%string)
         (Market.items e)) out.
Proof.
  intros H. apply market_create_stocks_inv in H as [H ->].
  split; [reflexivity|].
  apply (build_stocks_entries _ _ (market_key _ _)) in H.
  eapply Forall_impl; [exact H|].
  intros e (code & n & ->). cbn. repeat constructor.
Qed.

Lemma C10_one_timestamp_witness :
  Forall (fun e =>
    Forall (fun item => Market.updatedAt item = "2024-05-01T10:00:00Z")
      (Market.items e))
    [Market.stock_entry "wh" "2024-05-01T10:00:00Z" "A" 5;
     Market.stock_entry "wh" "2024-05-01T10:00:00Z" "B" 100;
     Market.stock_entry "wh" "2024-05-01T10:00:00Z" "C" 0].
Proof.
  apply (C10_one_timestamp ticking 0 [watch_A; watch_B] ["A"; "B"; "C"] "wh"
           _ ["C"] 1%nat).
  reflexivity.
Defined.

(** [create_stocks] hands the listing back without the identifiers it
    matched: it is shorter as soon as one record matches. *)
Lemma create_stocks_consumes watch_remnants offer_ids out unmatched watch :
  Seller.create_stocks watch_remnants offer_ids = (Ok out, unmatched) ->
  watch ∈ watch_remnants -> code_of watch ∈ offer_ids ->
  (length unmatched < length offer_ids)%nat.
Proof.
  intros H Hw Hc. apply build_stocks_inv in H as (m & Hscan & _).
  apply (scan_remnants_spec _ _ seller_key) in Hscan
    as (rows & matched & _ & _ & Hmade & _ & Hp & Hfirst).
  apply Permutation_length in Hp. rewrite length_app, length_map in Hp.
  apply Forall2_length in Hmade.
  specialize (Hfirst (code_of watch)).
  assert (Hrows : rows <> []).
  { intros ->. rewrite filter_nil in Hfirst.
    assert (Hocc : (0 < occurrences (code_of watch) offer_ids)%nat).
    { destruct (occurrences (code_of watch) offer_ids) eqn:E; [|lia].
      apply list_elem_of_In, in_split in Hc as (l1 & l2 & ->).
      rewrite occurrences_app, occurrences_cons_eq in E. lia. }
    assert (Hf : watch ∈ filter (fun w => code_of w = code_of watch)
                          watch_remnants)
      by (now apply list_elem_of_filter).
    destruct (filter (fun w => code_of w = code_of watch) watch_remnants);
      [inversion Hf|].
    destruct (occurrences (code_of watch) offer_ids); [lia|discriminate]. }
  destruct rows; [congruence|]. cbn in Hmade. lia.
Qed.

(** C6, on the code. The list [main] passes to [create_stocks] comes back
    without the matched identifier, and [create_prices], given the same
    list afterwards, finds nothing to price, although the record and the
    catalogue agree on the offer. *)
Theorem C6_listing_consumed :
  Seller.create_stocks [watch_A] ["A"] = (Ok [Seller.stock_entry "A" 5], [])
  /\ (exists p, Seller.create_prices [watch_A] ["A"] = Ok [p]
                /\ Seller.price_offer_id p = "A" /\ Seller.price p = "5990")
  /\ Seller.main_payloads [watch_A] ["A"]
     = Ok ([Seller.stock_entry "A" 5], [])
  /\ Market.create_stocks ticking 0 [watch_A] ["A"] "wh"
     = (Ok [Market.stock_entry "wh" "2024-05-01T10:00:00Z" "A" 5], [], 1%nat).
Proof.
  split; [reflexivity|]. split; [|split; reflexivity].
  eexists. split; [reflexivity|]. split; reflexivity.
Qed.

(** ** Price entries *)

Section Prices.
Context {P : Type} (price_entry : string -> PyVal -> result P).
Context (key : P -> string).
Hypothesis key_entry :
  forall code cell p, price_entry code cell = Ok p -> key p = code.

Lemma build_prices_rows watch_remnants offer_ids :
  forall prices,
    build_prices price_entry watch_remnants offer_ids = Ok prices ->
    Forall2 (priced_from price_entry)
      (filter (fun watch => code_of watch ∈ offer_ids) watch_remnants)
      prices.
Proof.
  induction watch_remnants as [|watch rest IH]; intros prices H;
    cbn [build_prices] in H.
  - injection H as <-. constructor.
  - fold (code_of watch) in H. rewrite filter_cons.
    destruct (contains (code_of watch) offer_ids) eqn:Hin.
    + apply contains_true in Hin.
      destruct (decide (code_of watch ∈ offer_ids)) as [_|Hn];
        [|contradiction].
      destruct (price_entry (code_of watch) (get watch col_price))
        as [p|e] eqn:Hp; [|discriminate].
      cbn [mbind result_bind] in H.
      destruct (build_prices price_entry rest offer_ids) as [ps|e'];
        [|discriminate].
      injection H as <-. constructor; [exact Hp | now apply IH].
    + apply contains_false in Hin.
      destruct (decide (code_of watch ∈ offer_ids)) as [Hy|_];
        [contradiction|].
      now apply IH.
Qed.

Lemma priced_keys rows prices :
  Forall2 (priced_from price_entry) rows prices ->
  map key prices = map code_of rows.
Proof.
  induction 1 as [|w p rows prices Hp _ IH]; [reflexivity|].
  cbn [map]. rewrite IH. f_equal. exact (key_entry _ _ _ Hp).
Qed.

Lemma build_prices_listed watch_remnants offer_ids prices :
  build_prices price_entry watch_remnants offer_ids = Ok prices ->
  prices_for_listed price_entry key watch_remnants offer_ids prices.
Proof.
  intros H. apply build_prices_rows in H. split; [exact H|].
  intros o. rewrite (priced_keys _ _ H), !list_elem_of_In, !in_map_iff.
  split.
  - intros (w & <- & Hw).
    apply list_elem_of_In, list_elem_of_filter in Hw as [Hin Hw].
    split; [now apply list_elem_of_In|]. exists w.
    split; [reflexivity | now apply list_elem_of_In].
  - intros (Hin & w & <- & Hw). exists w. split; [reflexivity|].
    apply list_elem_of_In, list_elem_of_filter.
    split; now apply list_elem_of_In.
Qed.

Lemma build_prices_ok watch_remnants offer_ids :
  Forall (fun watch =>
            code_of watch ∈ offer_ids ->
            is_ok (price_entry (code_of watch) (get watch col_price)) = true)
    watch_remnants ->
  exists prices, build_prices price_entry watch_remnants offer_ids = Ok prices.
Proof.
  induction 1 as [|watch rest Hw _ [ps IH]]; cbn [build_prices]; [eauto|].
  fold (code_of watch).
  destruct (contains (code_of watch) offer_ids) eqn:Hin; [|eauto].
  apply contains_true, Hw in Hin.
  destruct (price_entry (code_of watch) (get watch col_price));
    [|discriminate].
  cbn [mbind result_bind]. rewrite IH. cbn. eauto.
Qed.
End Prices.

Lemma seller_price_key code cell p :
  Seller.price_entry code cell = Ok p -> Seller.price_offer_id p = code.
Proof.
  unfold Seller.price_entry. destruct (price_conversion cell); [|discriminate].
  intros [= <-]. reflexivity.
Qed.

Lemma market_price_key code cell p :
  Market.price_entry code cell = Ok p -> Market.id p = code.
Proof.
  unfold Market.price_entry.
  destruct (price_conversion cell) as [s|]; [|discriminate].
  cbn [mbind result_bind]. destruct (int_of_str s); [|discriminate].
  intros [= <-]. reflexivity.
Qed.

(** C5. [create_prices] returns one price entry for each supplier record
    whose code is in the listing, in the order of the records, and nothing
    else: a record whose code is not listed gives no entry, and neither
    does a listed identifier that no record carries.  The call returns
    whenever the price of every listed record converts. *)
Theorem C5_create_prices :
  (forall watch_remnants offer_ids prices,
     Seller.create_prices watch_remnants offer_ids = Ok prices ->
     prices_for_listed Seller.price_entry Seller.price_offer_id
       watch_remnants offer_ids prices)
  /\ (forall watch_remnants offer_ids prices,
        Market.create_prices watch_remnants offer_ids = Ok prices ->
        prices_for_listed Market.price_entry Market.id
          watch_remnants offer_ids prices)
  /\ (forall watch_remnants offer_ids,
        Forall (fun watch =>
                  code_of watch ∈ offer_ids ->
                  exists s, get watch col_price = VStr s)
          watch_remnants ->
        exists prices, Seller.create_prices watch_remnants offer_ids = Ok prices)
  /\ (forall watch_remnants offer_ids,
        Forall (fun watch =>
                  code_of watch ∈ offer_ids ->
                  is_ok (Market.price_entry (code_of watch)
                           (get watch col_price)) = true)
          watch_remnants ->
        exists prices, Market.create_prices watch_remnants offer_ids = Ok prices).
Proof.
  split; [|split; [|split]].
  - intros ws ids prices H.
    now apply (build_prices_listed _ _ seller_price_key) in H.
  - intros ws ids prices H.
    now apply (build_prices_listed _ _ market_price_key) in H.
  - intros ws ids H. apply build_prices_ok.
    eapply Forall_impl; [exact H|]. intros w Hw Hin.
    destruct (Hw Hin) as [s ->]. reflexivity.
  - intros ws ids H. now apply build_prices_ok.
Qed.

Lemma C5_create_prices_witness :
  (exists prices,
     Seller.create_prices [watch_A; watch_B] ["A"; "B"; "C"] = Ok prices
     /\ prices_for_listed Seller.price_entry Seller.price_offer_id
          [watch_A; watch_B] ["A"; "B"; "C"] prices
     /\ length prices = 2%nat)
  /\ exists prices,
       Market.create_prices [watch_A; watch_B] ["A"; "B"; "C"] = Ok prices
       /\ prices_for_listed Market.price_entry Market.id
            [watch_A; watch_B] ["A"; "B"; "C"] prices.
Proof.
  destruct C5_create_prices as (Hseller & Hmarket & Hok & Hok').
  split.
  - destruct (Hok [watch_A; watch_B] ["A"; "B"; "C"]) as [prices Hp].
    { repeat constructor; intros _; eexists; reflexivity. }
    exists prices. split; [exact Hp|]. split; [now apply Hseller|].
    vm_compute in Hp. injection Hp as <-. reflexivity.
  - destruct (Hok' [watch_A; watch_B] ["A"; "B"; "C"]) as [prices Hp].
    { repeat constructor. }
    exists prices. split; [exact Hp | now apply Hmarket].
Defined.

(** ** Pagination *)

Section Loops.
Context {St Res : Type} (body : nat -> St -> outcome St Res).

(** The loop returns [r] within [fuel] turns exactly when one of its
    first [fuel] turns breaks with [r]. *)
Lemma while_true_spec fuel : forall call s r,
  while_true body fuel call s = Some r
  <-> exists k s', (k < fuel)%nat /\ reach body call k s = Some s'
                   /\ body (call + k)%nat s' = Break r.
Proof.
  induction fuel as [|fuel IH]; intros call s r.
  - split; [discriminate | intros (k & _ & Hk & _); lia].
  - cbn [while_true]. destruct (body call s) as [r0|s1] eqn:Hb.
    + split.
      * intros [= <-]. exists 0%nat, s.
        rewrite Nat.add_0_r. repeat split; [lia | exact Hb].
      * intros ([|k] & s' & _ & Hreach & Hbr); cbn [reach] in Hreach.
        -- injection Hreach as <-. rewrite Nat.add_0_r in Hbr. congruence.
        -- rewrite Hb in Hreach. discriminate.
    + rewrite IH. split.
      * intros (k & s' & Hk & Hreach & Hbr). exists (S k), s'.
        cbn [reach]. rewrite Hb, Nat.add_succ_r.
        repeat split; [lia | exact Hreach | exact Hbr].
      * intros ([|k] & s' & Hk & Hreach & Hbr); cbn [reach] in Hreach.
        -- injection Hreach as <-. rewrite Nat.add_0_r in Hbr. congruence.
        -- rewrite Hb in Hreach. rewrite Nat.add_succ_r in Hbr.
           exists k, s'. repeat split; [lia | exact Hreach | exact Hbr].
Qed.

(** A loop whose every turn continues is still running after any number
    of turns. *)
Lemma while_true_runs (inv : St -> Prop) :
  (forall call s, inv s -> exists s', body call s = Continue s' /\ inv s') ->
  forall fuel call s, inv s -> while_true body fuel call s = None.
Proof.
  intros Hstep. induction fuel as [|fuel IH]; intros call s Hs;
    [reflexivity|].
  cbn [while_true]. destruct (Hstep call s Hs) as (s' & -> & Hs').
  now apply IH.
Qed.
End Loops.

Lemma seller_turn_break get_product_list k last_id product_list r :
  (exists x, Seller.get_offer_ids_turn get_product_list k
               (last_id, product_list) = Break x
             /\ r = match x with
                    | Ok l => Ok (map Seller.offer_id l)
                    | Raise e => Raise e
                    end)
  <-> match get_product_list k last_id with
      | Raise e => r = Raise e
      | Ok page =>
          let product_list := product_list ++ Seller.items page in
          Seller.eq_len (Seller.total page) (length product_list) = true
          /\ r = Ok (map Seller.offer_id product_list)
      end.
Proof.
  unfold Seller.get_offer_ids_turn.
  destruct (get_product_list k last_id) as [page|e]; cbn zeta.
  - destruct (Seller.eq_len _ _); split.
    + intros (x & [= <-] & ->). split; reflexivity.
    + intros [_ ->]. eexists. split; reflexivity.
    + intros (x & [=] & _).
    + intros [[=] _].
  - split.
    + intros (x & [= <-] & ->). reflexivity.
    + intros ->. eexists. split; reflexivity.
Qed.

Lemma market_turn_break get_product_list k page_token product_list r :
  (exists x, Market.get_offer_ids_turn get_product_list k
               (page_token, product_list) = Break x
             /\ r = match x with
                    | Ok l => Ok (map Market.shopSku l)
                    | Raise e => Raise e
                    end)
  <-> match get_product_list k page_token with
      | Raise e => r = Raise e
      | Ok page =>
          falsy (Market.nextPageToken page) = true
          /\ r = Ok (map Market.shopSku
                       (product_list ++ Market.offerMappingEntries page))
      end.
Proof.
  unfold Market.get_offer_ids_turn.
  destruct (get_product_list k page_token) as [page|e]; cbn zeta.
  - destruct (falsy _); split.
    + intros (x & [= <-] & ->). split; reflexivity.
    + intros [_ ->]. eexists. split; reflexivity.
    + intros (x & [=] & _).
    + intros [[=] _].
  - split.
    + intros (x & [= <-] & ->). reflexivity.
    + intros ->. eexists. split; reflexivity.
Qed.

Lemma seller_get_offer_ids_spec get_product_list fuel r :
  Seller.get_offer_ids get_product_list fuel = Some r
  <-> exists k, (k < fuel)%nat /\ seller_stops_at get_product_list k r.
Proof.
  unfold Seller.get_offer_ids, seller_stops_at. split.
  - destruct (while_true _ fuel 0%nat (VStr "", [])) as [x|] eqn:Hloop;
      [|discriminate].
    apply while_true_spec in Hloop as (k & [c acc] & Hk & Hreach & Hbr).
    intros Hr. exists k. split; [exact Hk|]. exists c, acc.
    split; [exact Hreach|]. apply seller_turn_break. exists x.
    split; [exact Hbr|]. destruct x; congruence.
  - intros (k & Hk & c & acc & Hreach & Hstop).
    apply seller_turn_break in Hstop as (x & Hbr & ->).
    assert (Hloop : while_true (Seller.get_offer_ids_turn get_product_list)
                      fuel 0%nat (VStr "", []) = Some x)
      by (apply while_true_spec; eauto).
    rewrite Hloop. now destruct x.
Qed.

Lemma market_get_offer_ids_spec get_product_list fuel r :
  Market.get_offer_ids get_product_list fuel = Some r
  <-> exists k, (k < fuel)%nat /\ market_stops_at get_product_list k r.
Proof.
  unfold Market.get_offer_ids, market_stops_at. split.
  - destruct (while_true _ fuel 0%nat (VStr "", [])) as [x|] eqn:Hloop;
      [|discriminate].
    apply while_true_spec in Hloop as (k & [c acc] & Hk & Hreach & Hbr).
    intros Hr. exists k. split; [exact Hk|]. exists c, acc.
    split; [exact Hreach|]. apply market_turn_break. exists x.
    split; [exact Hbr|]. destruct x; congruence.
  - intros (k & Hk & c & acc & Hreach & Hstop).
    apply market_turn_break in Hstop as (x & Hbr & ->).
    assert (Hloop : while_true (Market.get_offer_ids_turn get_product_list)
                      fuel 0%nat (VStr "", []) = Some x)
      by (apply while_true_spec; eauto).
    rewrite Hloop. now destruct x.
Qed.

Lemma seller_stuck_runs fuel : Seller.get_offer_ids seller_stuck fuel = None.
Proof.
  unfold Seller.get_offer_ids.
  rewrite (while_true_runs _ (fun _ => True)); [reflexivity| |exact I].
  intros call [c acc] _. eexists. split; [|exact I].
  unfold Seller.get_offer_ids_turn, seller_stuck.
  cbn [Seller.items Seller.total Seller.last_id Seller.eq_len].
  rewrite length_app. cbn [length].
  destruct (Z.eqb_spec 0 (Z.of_nat (length acc + 1))); [lia | reflexivity].
Qed.

Lemma market_stuck_runs fuel : Market.get_offer_ids market_stuck fuel = None.
Proof.
  unfold Market.get_offer_ids.
  rewrite (while_true_runs _ (fun _ => True)); [reflexivity| |exact I].
  intros call [c acc] _. eexists. split; [reflexivity | exact I].
Qed.

(** C7, amended. Each catalogue loop ends at the first turn whose request
    fails or whose answer passes the exit test (Ozon: the reported total
    equals the number of products gathered so far; Yandex Market: the
    next-page token is empty or absent) and at no other: it returns within
    [fuel] turns exactly when one of the first [fuel] turns is such a turn.
    In particular a first answer with total zero and no product, or with
    an empty token, ends the loop after one request. *)
Theorem C7_pagination_stops :
  (forall get_product_list fuel r,
     Seller.get_offer_ids get_product_list fuel = Some r
     <-> exists k, (k < fuel)%nat /\ seller_stops_at get_product_list k r)
  /\ (forall get_product_list fuel r,
        Market.get_offer_ids get_product_list fuel = Some r
        <-> exists k, (k < fuel)%nat /\ market_stops_at get_product_list k r)
  /\ (forall get_product_list page,
        get_product_list 0%nat (VStr "") = Ok page ->
        Seller.total page = VInt 0 -> Seller.items page = [] ->
        Seller.get_offer_ids get_product_list 1 = Some (Ok []))
  /\ (forall get_product_list page,
        get_product_list 0%nat (VStr "") = Ok page ->
        falsy (Market.nextPageToken page) = true ->
        Market.get_offer_ids get_product_list 1
        = Some (Ok (map Market.shopSku (Market.offerMappingEntries page)))).
Proof.
  split; [exact seller_get_offer_ids_spec|].
  split; [exact market_get_offer_ids_spec|]. split.
  - intros srv page Hpage Htotal Hitems.
    unfold Seller.get_offer_ids. cbn. now rewrite Hpage, Hitems, Htotal.
  - intros srv page Hpage Htoken.
    unfold Market.get_offer_ids. cbn. now rewrite Hpage, Htoken.
Qed.

Lemma C7_pagination_stops_witness :
  Seller.get_offer_ids seller_two_pages 5 = Some (Ok ["A"; "B"; "C"])
  /\ Market.get_offer_ids market_two_pages 5 = Some (Ok ["A"; "B"; "C"])
  /\ Seller.get_offer_ids seller_empty 1 = Some (Ok [])
  /\ Market.get_offer_ids market_empty 1 = Some (Ok []).
Proof.
  destruct C7_pagination_stops as (Hseller & Hmarket & Hzero & Htoken).
  split; [|split; [|split]].
  - apply (Hseller seller_two_pages 5%nat). exists 1%nat. split; [lia|].
    eexists _, _. split; [reflexivity|]. split; reflexivity.
  - apply (Hmarket market_two_pages 5%nat). exists 1%nat. split; [lia|].
    eexists _, _. split; [reflexivity|]. split; reflexivity.
  - apply (Hzero seller_empty _ eq_refl); reflexivity.
  - apply (Htoken market_empty _ eq_refl). reflexivity.
Defined.

(** A server may keep both loops running for ever: the Ozon loop even
    when the first answer reports a total of zero. *)
Lemma C7_counterexample :
  ~ (forall get_product_list, exists fuel r,
       Seller.get_offer_ids get_product_list fuel = Some r)
  /\ ~ (forall get_product_list, exists fuel r,
          Market.get_offer_ids get_product_list fuel = Some r).
Proof.
  split; intros H.
  - destruct (H seller_stuck) as (fuel & r & Hr).
    rewrite seller_stuck_runs in Hr. discriminate.
  - destruct (H market_stuck) as (fuel & r & Hr).
    rewrite market_stuck_runs in Hr. discriminate.
Qed.

(** ** The supplier feed *)

(** C8, on the code. Once the archive is unpacked, [download_stock]
    deletes the spreadsheet when [pandas] has read it, and leaves it in the
    working directory when the reading raises: [os.remove] is only reached
    on the way that returns. *)
Theorem C8_download_stock_cleanup feed fs content members sheet :
  Seller.session_get feed = Ok content ->
  Seller.zip_members feed content = Ok members ->
  Seller.extractall members fs !! Seller.excel_file = Some sheet ->
  (forall rows, Seller.read_excel feed sheet = Ok rows ->
     exists fs', Seller.download_stock feed fs = (Ok rows, fs')
                 /\ fs' !! Seller.excel_file = None)
  /\ (forall e, Seller.read_excel feed sheet = Raise e ->
        exists fs', Seller.download_stock feed fs = (Raise e, fs')
                    /\ fs' !! Seller.excel_file = Some sheet).
Proof.
  intros Hget Hzip Hfile. unfold Seller.download_stock.
  rewrite Hget, Hzip, Hfile. split.
  - intros rows ->. eexists. split; [reflexivity|]. apply lookup_delete_eq.
  - intros e ->. eexists. split; [reflexivity | exact Hfile].
Qed.

Lemma C8_download_stock_cleanup_witness :
  (exists fs', Seller.download_stock feed_unreadable ∅ = (Raise ValueError, fs')
               /\ fs' !! Seller.excel_file = Some "garbage")
  /\ exists fs', Seller.download_stock feed_good ∅ = (Ok [watch_A; watch_B], fs')
                 /\ fs' !! Seller.excel_file = None.
Proof.
  split.
  - apply (C8_download_stock_cleanup feed_unreadable ∅ "zip"
             [("ostatki.xls", "garbage")] "garbage");
      reflexivity.
  - apply (C8_download_stock_cleanup feed_good ∅ "zip"
             [("ostatki.xls", "sheet")] "sheet");
      reflexivity.
Defined.

(** * Further properties of the code *)

(** ** [divide] outside its intended use, and where each element goes *)

(** X1. A chunk size of zero makes [range] raise, whatever the list; a negative
    one gives an empty [range], so that the generator yields nothing and
    the elements of the list are dropped without an error. *)
Theorem X1_divide_nonpositive {A} (lst : list A) :
  divide lst 0 = Raise ValueError
  /\ forall n, n < 0 -> divide lst n = Ok [].
Proof.
  split; [reflexivity|]. intros n Hn. unfold divide, range.
  destruct (Z.eqb_spec n 0); [lia|]. destruct (Z.ltb_spec 0 n); [lia|].
  destruct (Z.ltb_spec (Z.of_nat (length lst)) 0); [lia|]. reflexivity.
Qed.

Lemma X1_divide_nonpositive_witness :
  divide ["a"; "b"; "c"] (-2) = Ok [].
Proof. apply (X1_divide_nonpositive ["a"; "b"; "c"]). lia. Defined.

Lemma chunk_count_ceil len n :
  1 <= n -> 0 <= len -> chunk_count len n = Z.to_nat ((len + n - 1) / n).
Proof.
  intros Hn Hlen. unfold chunk_count. f_equal.
  destruct (Z.ltb_spec 0 len).
  - replace (len + n - 1) with (len - 1 + 1 * n) by lia.
    rewrite Z.div_add by lia. reflexivity.
  - replace len with 0 by lia. rewrite Z.div_small by lia. reflexivity.
Qed.

(** X2. For a chunk size [n] of at least one, [divide] makes as many chunks as
    [len(lst) / n] rounded up, none of them empty, and the element at
    index [i] of the list is the element at index [i mod n] of chunk
    [i / n]. *)
Theorem X2_divide_index {A} (lst : list A) (n : Z) :
  1 <= n ->
  exists chunks,
    divide lst n = Ok chunks
    /\ length chunks = Z.to_nat ((Z.of_nat (length lst) + n - 1) / n)
    /\ Forall (fun c => c <> []) chunks
    /\ forall i x, lst !! i = Some x ->
         exists c, chunks !! (i / Z.to_nat n)%nat = Some c
                   /\ c !! (i mod Z.to_nat n)%nat = Some x.
Proof.
  intros Hn. eexists. split; [apply divide_pos; lia|].
  set (m := chunk_count (Z.of_nat (length lst)) n).
  set (n' := Z.to_nat n). assert (Hn' : (1 <= n')%nat) by lia.
  split; [|split].
  - rewrite length_map, length_seq. apply chunk_count_ceil; lia.
  - apply Forall_forall. intros c Hc.
    apply list_elem_of_In, in_map_iff in Hc as (k & <- & Hk).
    apply in_seq in Hk.
    pose proof (chunk_count_inside (Z.of_nat (length lst)) n k) as Hin.
    intros Hnil. apply (f_equal length) in Hnil.
    rewrite length_take, length_drop in Hnil. cbn [length] in Hnil. nia.
  - intros i x Hi. pose proof (lookup_lt_Some _ _ _ Hi) as Hlt.
    pose proof (Nat.div_mod_eq i n') as Hdm.
    pose proof (Nat.mod_upper_bound i n' ltac:(lia)) as Hmod.
    assert (Hk : (i / n' < m)%nat).
    { pose proof (chunk_count_covers (Z.of_nat (length lst)) n).
      destruct (Nat.lt_ge_cases (i / n') m) as [|Hge]; [assumption|].
      assert (m * n' <= i / n' * n')%nat by (apply Nat.mul_le_mono_r; lia).
      nia. }
    eexists. split.
    + change (map ?f ?l) with (f <$> l).
      rewrite list_lookup_fmap, lookup_seq_lt by assumption. reflexivity.
    + rewrite lookup_take_lt, lookup_drop by assumption.
      rewrite <- Hi. f_equal. cbn [Nat.add]. lia.
Qed.

Lemma X2_divide_index_witness :
  exists chunks,
    divide ["a"; "b"; "c"; "d"; "e"] 2 = Ok chunks
    /\ length chunks = 3%nat
    /\ exists c, chunks !! 2%nat = Some c /\ c !! 0%nat = Some "e".
Proof.
  destruct (X2_divide_index ["a"; "b"; "c"; "d"; "e"] 2 ltac:(lia))
    as (chunks & Hdiv & Hlen & _ & Hidx).
  exists chunks. split; [exact Hdiv|]. split; [exact Hlen|].
  exact (Hidx 4%nat "e" eq_refl).
Defined.

(** ** What [price_conversion] returns, and what each client makes of it *)

Lemma sub_non_digits_digits s :
  Forall (fun c => c ∈ ascii_digits) (chars (sub_non_digits s)).
Proof.
  rewrite chars_sub_non_digits. apply Forall_forall.
  intros c Hc. now apply list_elem_of_filter in Hc as [Hc _].
Qed.

Lemma sub_non_digits_id s :
  Forall (fun c => c ∈ ascii_digits) (chars s) -> sub_non_digits s = s.
Proof.
  induction s as [|c s IH]; [reflexivity|].
  cbn [chars list_ascii_of_string sub_non_digits]. intros H.
  inversion H as [|? ? Hc Hs]; subst.
  rewrite is_digit_spec, bool_decide_eq_true_2 by assumption.
  f_equal. now apply IH.
Qed.

Lemma digits_no_dot s :
  Forall (fun c => c ∈ ascii_digits) (chars s) -> "."%char ∉ chars s.
Proof.
  intros H Hdot. rewrite Forall_forall in H. specialize (H _ Hdot).
  apply list_elem_of_In in H. cbn in H. intuition discriminate.
Qed.

Lemma sub_non_digits_length s :
  (String.length (sub_non_digits s) <= String.length s)%nat.
Proof.
  induction s as [|c s IH]; [reflexivity|]. cbn [sub_non_digits].
  destruct (is_digit c); cbn [String.length]; lia.
Qed.

Lemma split_dot_head_length s :
  (String.length (split_dot_head s) <= String.length s)%nat.
Proof.
  induction s as [|c s IH]; [reflexivity|]. cbn [split_dot_head].
  destruct (Ascii.eqb c "."); cbn [String.length]; lia.
Qed.

(** X3. The text [price_conversion] returns holds digits only, is never longer
    than the cell, and is a fixed point: converting it again changes
    nothing. *)
Theorem X3_price_conversion_digits s d :
  price_conversion (VStr s) = Ok d ->
  Forall (fun c => c ∈ ascii_digits) (chars d)
  /\ (String.length d <= String.length s)%nat
  /\ price_conversion (VStr d) = Ok d.
Proof.
  intros [= <-]. pose proof (sub_non_digits_digits (split_dot_head s)) as Hd.
  split; [exact Hd|]. split.
  - etransitivity; [apply sub_non_digits_length | apply split_dot_head_length].
  - cbn [price_conversion]. f_equal.
    rewrite split_dot_head_none by (now apply digits_no_dot).
    now apply sub_non_digits_id.
Qed.

Lemma X3_price_conversion_digits_witness :
  Forall (fun c => c ∈ ascii_digits) (chars "5990")
  /\ (String.length "5990" <= String.length "5'990.00 руб.")%nat
  /\ price_conversion (VStr "5990") = Ok "5990".
Proof. apply (X3_price_conversion_digits "5'990.00 руб." "5990"). reflexivity. Defined.

Lemma sub_non_digits_none s :
  (forall c, c ∈ chars s -> is_digit c = false) -> sub_non_digits s = "".
Proof.
  induction s as [|c s IH]; [reflexivity|].
  cbn [chars list_ascii_of_string sub_non_digits]. intros H.
  rewrite (H c) by left. apply IH. intros c' Hc'. apply H. now right.
Qed.

Lemma chars_split_dot_head_sub s c :
  c ∈ chars (split_dot_head s) -> c ∈ chars s.
Proof.
  induction s as [|a s IH]; [easy|]. cbn [split_dot_head].
  destruct (Ascii.eqb a "."); [intros H; inversion H|].
  cbn [chars list_ascii_of_string]. intros H.
  apply elem_of_cons in H as [->|H]; [left | right; now apply IH].
Qed.

(** X4. A price cell whose text holds no digit (the empty cell of the feed, a
    remark in words) converts to the empty text: the Ozon client sends it
    as the price [""], the Yandex Market client raises [ValueError] when it
    calls [int] on it. *)
Theorem X4_price_without_digit code s :
  (forall c, c ∈ chars s -> is_digit c = false) ->
  (exists p, Seller.price_entry code (VStr s) = Ok p
             /\ Seller.price p = "" /\ Seller.price_offer_id p = code)
  /\ Market.price_entry code (VStr s) = Raise ValueError.
Proof.
  intros H.
  assert (Hd : sub_non_digits (split_dot_head s) = "").
  { apply sub_non_digits_none. intros c Hc.
    apply H. now apply chars_split_dot_head_sub. }
  unfold Seller.price_entry, Market.price_entry. cbn [price_conversion].
  rewrite Hd. split; [|reflexivity].
  eexists. split; [reflexivity|]. split; reflexivity.
Qed.

Lemma X4_price_without_digit_witness :
  (exists p, Seller.price_entry "A" (VStr "") = Ok p
             /\ Seller.price p = "" /\ Seller.price_offer_id p = "A")
  /\ Market.price_entry "A" (VStr "") = Raise ValueError.
Proof.
  apply (X4_price_without_digit "A" ""). intros c Hc. inversion Hc.
Defined.

Lemma scan_digits_nonneg s : forall acc n b v m,
  0 <= acc -> scan_digits s acc n b = Some (v, m) -> 0 <= v.
Proof.
  induction s as [|c s IH]; intros acc n b v m Hacc; cbn [scan_digits].
  - destruct b; [|discriminate]. now intros [= <- _].
  - destruct (is_digit c) eqn:Hc.
    + apply IH. unfold is_digit in Hc. apply andb_true_iff in Hc as [H1 _].
      apply Nat.leb_le in H1. unfold digit_value. lia.
    + destruct (Ascii.eqb c "_"); [|discriminate].
      destruct b; [|discriminate]. now apply IH.
Qed.

Lemma digits_is_digit s :
  Forall (fun c => c ∈ ascii_digits) (chars s) ->
  Forall (fun c => is_digit c = true) (chars s).
Proof.
  induction 1 as [|c l Hc _ IH]; constructor; [|exact IH].
  rewrite is_digit_spec. now apply bool_decide_eq_true_2.
Qed.

(** X5. The value the Yandex Market client sends is never negative: a minus
    sign in the cell is deleted with the other non-digits before [int]
    reads the text. *)
Theorem X5_market_price_nonnegative code cell p :
  Market.price_entry code cell = Ok p ->
  0 <= Market.value (Market.price p) /\ Market.id p = code.
Proof.
  intros H. split; [|exact (market_price_key _ _ _ H)].
  unfold Market.price_entry in H.
  destruct cell as [|s|z]; try discriminate. cbn [price_conversion] in H.
  cbn [mbind result_bind] in H.
  pose proof (digits_is_digit _ (sub_non_digits_digits (split_dot_head s)))
    as Hd.
  destruct (sub_non_digits (split_dot_head s)) as [|c d]; [discriminate|].
  cbn [chars list_ascii_of_string] in Hd. inversion Hd as [|? ? Hc Hrest]; subst.
  rewrite int_of_str_digit_head in H
    by (try assumption; now apply digits_no_space).
  destruct (scan_digits (String c d) 0 0 true) as [[v m]|] eqn:Hscan;
    [|discriminate].
  destruct (max_str_digits <? m)%nat; [discriminate|].
  injection H as <-. cbn [Market.price Market.value].
  exact (scan_digits_nonneg _ _ _ _ _ _ (Z.le_refl 0) Hscan).
Qed.

Lemma X5_market_price_nonnegative_witness :
  exists p, Market.price_entry "A" (VStr "-150.00 руб.") = Ok p
            /\ 0 <= Market.value (Market.price p) /\ Market.id p = "A".
Proof.
  eexists. split; [reflexivity|].
  apply (X5_market_price_nonnegative "A" (VStr "-150.00 руб.")). reflexivity.
Defined.

(** ** Stock entries: feeds that match nothing, failures, numeric cells *)

Section StocksMore.
Context {E : Type} (entry : string -> Z -> E).

(** The first loop over two feeds in a row. *)
Lemma scan_remnants_app rows1 rows2 stocks offer_ids :
  scan_remnants entry (rows1 ++ rows2) stocks offer_ids
  = match scan_remnants entry rows1 stocks offer_ids with
    | (Ok stocks1, offer_ids1) => scan_remnants entry rows2 stocks1 offer_ids1
    | (Raise e, offer_ids1) => (Raise e, offer_ids1)
    end.
Proof.
  revert stocks offer_ids.
  induction rows1 as [|watch rest IH]; intros stocks offer_ids; [reflexivity|].
  cbn [app scan_remnants].
  destruct (contains _ offer_ids); [|apply IH].
  destruct (stock_count _); [|reflexivity].
  destruct (remove _ offer_ids); [apply IH | reflexivity].
Qed.

Lemma scan_remnants_unlisted watch_remnants stocks offer_ids :
  Forall (fun watch => code_of watch ∉ offer_ids) watch_remnants ->
  scan_remnants entry watch_remnants stocks offer_ids = (Ok stocks, offer_ids).
Proof.
  induction 1 as [|watch rest Hw _ IH]; [reflexivity|]. cbn [scan_remnants].
  fold (code_of watch). apply contains_false in Hw. now rewrite Hw.
Qed.

Lemma build_stocks_unlisted watch_remnants offer_ids :
  Forall (fun watch => code_of watch ∉ offer_ids) watch_remnants ->
  build_stocks entry watch_remnants offer_ids
  = (Ok (map (fun offer_id => entry offer_id 0) offer_ids), offer_ids).
Proof.
  intros H. unfold build_stocks. now rewrite scan_remnants_unlisted.
Qed.

Lemma build_stocks_fails rows1 watch rows2 offer_ids out1 offer_ids1 e :
  build_stocks entry rows1 offer_ids = (Ok out1, offer_ids1) ->
  code_of watch ∈ offer_ids1 ->
  stock_count (get watch col_quantity) = Raise e ->
  build_stocks entry (rows1 ++ watch :: rows2) offer_ids = (Raise e, offer_ids1).
Proof.
  intros H1 Hin He. apply build_stocks_inv in H1 as (m & Hscan & _).
  unfold build_stocks. rewrite scan_remnants_app, Hscan.
  cbn [scan_remnants]. fold (code_of watch).
  apply contains_true in Hin. now rewrite Hin, He.
Qed.

(** Whatever the outcome, the first loop only takes identifiers out of
    the listing. *)
Lemma scan_remnants_sublist watch_remnants :
  forall stocks offer_ids r unmatched,
    scan_remnants entry watch_remnants stocks offer_ids = (r, unmatched) ->
    unmatched `sublist_of` offer_ids.
Proof.
  induction watch_remnants as [|watch rest IH];
    intros stocks offer_ids r unmatched Hrun; cbn [scan_remnants] in Hrun.
  - now injection Hrun as _ <-.
  - destruct (contains (str (get watch col_code)) offer_ids) eqn:Hin;
      [|now apply (IH _ _ _ _ Hrun)].
    apply contains_true in Hin.
    destruct (stock_count _); [|now injection Hrun as _ <-].
    destruct (remove_elem _ _ Hin) as (ids1 & Hrm & _ & Hsub).
    rewrite Hrm in Hrun. etransitivity; [|exact Hsub].
    now apply (IH _ _ _ _ Hrun).
Qed.

(** Once the listing repeats no identifier, no record of the feed has its
    code in what the first loop leaves of the listing. *)
Lemma scan_remnants_exhausts watch_remnants :
  forall stocks offer_ids out unmatched,
    NoDup offer_ids ->
    scan_remnants entry watch_remnants stocks offer_ids = (Ok out, unmatched) ->
    Forall (fun watch => code_of watch ∉ unmatched) watch_remnants.
Proof.
  induction watch_remnants as [|watch rest IH];
    intros stocks offer_ids out unmatched Hnd Hrun; [constructor|].
  cbn [scan_remnants] in Hrun. fold (code_of watch) in Hrun.
  destruct (contains (code_of watch) offer_ids) eqn:Hin.
  - apply contains_true in Hin.
    destruct (stock_count (get watch col_quantity)); [|discriminate].
    destruct (remove_elem _ _ Hin) as (ids1 & Hrm & Hperm & Hsub1).
    rewrite Hrm in Hrun. rewrite Hperm in Hnd.
    apply NoDup_cons in Hnd as [Hnot Hnd1].
    constructor; [|now apply (IH _ _ _ _ Hnd1 Hrun)].
    intros Hu. apply Hnot.
    apply (elem_of_sublist _ _ _ Hu). now apply scan_remnants_sublist in Hrun.
  - apply contains_false in Hin.
    constructor; [|now apply (IH _ _ _ _ Hnd Hrun)].
    intros Hu. apply Hin.
    apply (elem_of_sublist _ _ _ Hu). now apply scan_remnants_sublist in Hrun.
Qed.
End StocksMore.

(** X6. When no record of the feed carries a listed code, and so when the feed
    is empty, [create_stocks] returns a zero entry for every listed offer,
    in the order of the listing, and leaves the listing as it was; the
    quantities of the feed are not converted, so none of them can make
    the call raise. *)
Theorem X6_create_stocks_unlisted watch_remnants offer_ids :
  Forall (fun watch => code_of watch ∉ offer_ids) watch_remnants ->
  Seller.create_stocks watch_remnants offer_ids
  = (Ok (map (fun offer_id => Seller.stock_entry offer_id 0) offer_ids),
     offer_ids)
  /\ forall utcnow clock warehouse_id,
       Market.create_stocks utcnow clock watch_remnants offer_ids warehouse_id
       = (Ok (map (fun offer_id =>
                     Market.stock_entry warehouse_id
                       (utcnow clock ++ "Z")%string offer_id 0) offer_ids),
          offer_ids, S clock).
Proof.
  intros H. split.
  - now apply build_stocks_unlisted.
  - intros utcnow clock wh. unfold Market.create_stocks.
    now rewrite build_stocks_unlisted.
Qed.

Lemma X6_create_stocks_unlisted_witness :
  Seller.create_stocks [row "Z" "soon" "1.00"] ["A"; "B"]
  = (Ok [Seller.stock_entry "A" 0; Seller.stock_entry "B" 0], ["A"; "B"])
  /\ Seller.create_stocks [] ["A"; "B"]
     = (Ok [Seller.stock_entry "A" 0; Seller.stock_entry "B" 0], ["A"; "B"]).
Proof.
  split.
  - apply (X6_create_stocks_unlisted [row "Z" "soon" "1.00"] ["A"; "B"]).
    repeat constructor. intros H. apply list_elem_of_In in H. cbn in H.
    intuition discriminate.
  - apply (X6_create_stocks_unlisted [] ["A"; "B"]). constructor.
Defined.

(** X7. [create_stocks] raises the error of the first listed record whose
    quantity does not convert.  No entry is returned, and the caller's
    list has by then lost the identifiers that the records before it
    matched. *)
Theorem X7_create_stocks_failure rows1 watch rows2 offer_ids e :
  stock_count (get watch col_quantity) = Raise e ->
  (forall out1 offer_ids1,
     Seller.create_stocks rows1 offer_ids = (Ok out1, offer_ids1) ->
     code_of watch ∈ offer_ids1 ->
     Seller.create_stocks (rows1 ++ watch :: rows2) offer_ids
     = (Raise e, offer_ids1))
  /\ (forall utcnow clock warehouse_id out1 offer_ids1 clock1,
        Market.create_stocks utcnow clock rows1 offer_ids warehouse_id
        = (Ok out1, offer_ids1, clock1) ->
        code_of watch ∈ offer_ids1 ->
        Market.create_stocks utcnow clock (rows1 ++ watch :: rows2) offer_ids
          warehouse_id
        = (Raise e, offer_ids1, S clock)).
Proof.
  intros He. split.
  - intros out1 ids1 H1 Hin. now apply (build_stocks_fails _ _ _ _ _ out1).
  - intros utcnow clock wh out1 ids1 clock1 H1 Hin.
    apply market_create_stocks_inv in H1 as [H1 _].
    unfold Market.create_stocks.
    now rewrite (build_stocks_fails _ _ _ _ _ out1 ids1 e H1 Hin He).
Qed.

Lemma X7_create_stocks_failure_witness :
  Seller.create_stocks [watch_A; row "B" "many" "1.00"; watch_B] ["A"; "B"]
  = (Raise ValueError, ["B"]).
Proof.
  destruct (X7_create_stocks_failure [watch_A] (row "B" "many" "1.00")
              [watch_B] ["A"; "B"] ValueError) as [Hseller _].
  - reflexivity.
  - apply (Hseller [Seller.stock_entry "A" 5; Seller.stock_entry "B" 0]
             ["B"]); [reflexivity | left].
Defined.

(** ** Price entries: failures, and the prices of [main] *)

Section PricesMore.
Context {P : Type} (price_entry : string -> PyVal -> result P).

Lemma build_prices_app rows1 rows2 offer_ids :
  build_prices price_entry (rows1 ++ rows2) offer_ids
  = (prices1 ← build_prices price_entry rows1 offer_ids;
     prices2 ← build_prices price_entry rows2 offer_ids;
     mret (prices1 ++ prices2)).
Proof.
  induction rows1 as [|watch rest IH]; cbn [app build_prices].
  - cbn [mbind result_bind mret result_ret].
    now destruct (build_prices price_entry rows2 offer_ids).
  - destruct (contains _ offer_ids); [|exact IH].
    destruct (price_entry _ _); [|reflexivity].
    cbn [mbind result_bind]. rewrite IH.
    destruct (build_prices price_entry rest offer_ids); [|reflexivity].
    cbn [mbind result_bind].
    now destruct (build_prices price_entry rows2 offer_ids).
Qed.

Lemma build_prices_unlisted watch_remnants offer_ids :
  Forall (fun watch => code_of watch ∉ offer_ids) watch_remnants ->
  build_prices price_entry watch_remnants offer_ids = Ok [].
Proof.
  induction 1 as [|watch rest Hw _ IH]; [reflexivity|]. cbn [build_prices].
  fold (code_of watch). apply contains_false in Hw. now rewrite Hw.
Qed.

Lemma build_prices_fails rows1 watch rows2 offer_ids prices1 e :
  build_prices price_entry rows1 offer_ids = Ok prices1 ->
  code_of watch ∈ offer_ids ->
  price_entry (code_of watch) (get watch col_price) = Raise e ->
  build_prices price_entry (rows1 ++ watch :: rows2) offer_ids = Raise e.
Proof.
  intros H1 Hin He. rewrite build_prices_app, H1.
  cbn [mbind result_bind build_prices]. fold (code_of watch).
  apply contains_true in Hin. now rewrite Hin, He.
Qed.
End PricesMore.

(** X8. [create_prices] is all or nothing: the first listed record whose price
    does not convert makes the call raise that error, and the entries
    already built are lost.  A record that lacks the price column is such
    a record for both clients. *)
Theorem X8_create_prices_failure rows1 watch rows2 offer_ids :
  code_of watch ∈ offer_ids ->
  (forall prices1 e,
     Seller.create_prices rows1 offer_ids = Ok prices1 ->
     Seller.price_entry (code_of watch) (get watch col_price) = Raise e ->
     Seller.create_prices (rows1 ++ watch :: rows2) offer_ids = Raise e)
  /\ (forall prices1 e,
        Market.create_prices rows1 offer_ids = Ok prices1 ->
        Market.price_entry (code_of watch) (get watch col_price) = Raise e ->
        Market.create_prices (rows1 ++ watch :: rows2) offer_ids = Raise e)
  /\ (watch !! col_price = None ->
      (forall prices1,
         Seller.create_prices rows1 offer_ids = Ok prices1 ->
         Seller.create_prices (rows1 ++ watch :: rows2) offer_ids
         = Raise AttributeError)
      /\ (forall prices1,
            Market.create_prices rows1 offer_ids = Ok prices1 ->
            Market.create_prices (rows1 ++ watch :: rows2) offer_ids
            = Raise AttributeError)).
Proof.
  intros Hin. split; [|split].
  - intros ps e H1 He. now apply (build_prices_fails _ _ _ _ _ ps).
  - intros ps e H1 He. now apply (build_prices_fails _ _ _ _ _ ps).
  - intros Hnone.
    assert (Hcell : get watch col_price = VNone)
      by (unfold get; now rewrite Hnone).
    split; intros ps H1; apply (build_prices_fails _ _ _ _ _ ps);
      try assumption.
    + unfold Seller.price_entry. now rewrite Hcell.
    + unfold Market.price_entry. now rewrite Hcell.
Qed.

Lemma X8_create_prices_failure_witness :
  Seller.create_prices
    [watch_A; <[col_code := VStr "B"]> ∅; watch_B] ["A"; "B"]
  = Raise AttributeError.
Proof.
  destruct (X8_create_prices_failure [watch_A] (<[col_code := VStr "B"]> ∅)
              [watch_B] ["A"; "B"]) as (_ & _ & Hmissing).
  - right. left.
  - destruct Hmissing as [Hseller _]; [reflexivity|].
    eapply Hseller. reflexivity.
Defined.

(** X9. In [main] of the Ozon client the price entries are built from the list
    that [create_stocks] has just emptied of every matched identifier:
    when the listing repeats no identifier, [main] builds no price entry
    at all, whatever the feed. *)
Theorem X9_main_prices_empty watch_remnants offer_ids stocks unmatched :
  NoDup offer_ids ->
  Seller.create_stocks watch_remnants offer_ids = (Ok stocks, unmatched) ->
  Seller.create_prices watch_remnants unmatched = Ok []
  /\ Seller.main_payloads watch_remnants offer_ids = Ok (stocks, []).
Proof.
  intros Hnd Hrun.
  assert (Hnone : Seller.create_prices watch_remnants unmatched = Ok []).
  { apply build_prices_unlisted.
    apply build_stocks_inv in Hrun as (m & Hscan & _).
    exact (scan_remnants_exhausts _ _ _ _ _ _ Hnd Hscan). }
  split; [exact Hnone|].
  unfold Seller.main_payloads. rewrite Hrun.
  cbn [mbind result_bind]. rewrite Hnone. reflexivity.
Qed.

Lemma X9_main_prices_empty_witness :
  Seller.create_prices [watch_A; watch_B] ["C"] = Ok []
  /\ Seller.main_payloads [watch_A; watch_B] ["A"; "B"; "C"]
     = Ok ([Seller.stock_entry "A" 5; Seller.stock_entry "B" 100;
            Seller.stock_entry "C" 0], []).
Proof.
  apply (X9_main_prices_empty [watch_A; watch_B] ["A"; "B"; "C"]).
  - repeat constructor; intros H; apply list_elem_of_In in H; cbn in H;
      intuition discriminate.
  - reflexivity.
Defined.

(** ** Quantities that are numbers *)





(** ** The working directory around [download_stock] *)

Lemma extractall_cons m members fs :
  Seller.extractall (m :: members) fs
  = Seller.extractall members (<[m.1 := m.2]> fs).
Proof. reflexivity. Qed.

Lemma extractall_other members : forall fs name,
  name ∉ members.*1 ->
  Seller.extractall members fs !! name = fs !! name.
Proof.
  induction members as [|m members IH]; intros fs name H; [reflexivity|].
  cbn [fmap list_fmap] in H. apply not_elem_of_cons in H as [Hne Hrest].
  rewrite extractall_cons, IH by assumption. now apply lookup_insert_ne.
Qed.

Lemma extractall_member members : forall fs name data,
  NoDup members.*1 -> (name, data) ∈ members ->
  Seller.extractall members fs !! name = Some data.
Proof.
  induction members as [|m members IH]; intros fs name data Hnd Hin;
    [inversion Hin|].
  cbn [fmap list_fmap] in Hnd. apply NoDup_cons in Hnd as [Hfresh Hnd].
  rewrite extractall_cons.
  apply elem_of_cons in Hin as [<-|Hin].
  - rewrite extractall_other by assumption. apply lookup_insert_eq.
  - now apply IH.
Qed.




(** X12. The other members of the archive are never cleaned up: once the
    archive is unpacked, each of them is in the working directory when
    [download_stock] returns or raises. *)
Theorem X12_download_stock_leftovers feed fs r fs' content members name data :
  Seller.session_get feed = Ok content ->
  Seller.zip_members feed content = Ok members ->
  NoDup members.*1 ->
  (name, data) ∈ members ->
  name <> Seller.excel_file ->
  Seller.download_stock feed fs = (r, fs') ->
  fs' !! name = Some data.
Proof.
  intros Hget Hzip Hnd Hin Hname Hrun.
  pose proof (extractall_member members fs name data Hnd Hin) as Hfile.
  unfold Seller.download_stock in Hrun. rewrite Hget, Hzip in Hrun.
  destruct (Seller.extractall members fs !! Seller.excel_file) as [sheet|];
    [|now injection Hrun as _ <-].
  destruct (Seller.read_excel feed sheet); injection Hrun as _ <-;
    [|exact Hfile].
  rewrite lookup_delete_ne by congruence. exact Hfile.
Qed.

(** X13. When the archive holds no spreadsheet of the expected name,
    [download_stock] reads the one an earlier run left in the working
    directory, returns its rows and deletes it; with none there, it raises
    [FileNotFoundError]. *)
Theorem X13_download_stock_stale feed fs content members :
  Seller.session_get feed = Ok content ->
  Seller.zip_members feed content = Ok members ->
  Seller.excel_file ∉ members.*1 ->
  (forall sheet rows,
     fs !! Seller.excel_file = Some sheet ->
     Seller.read_excel feed sheet = Ok rows ->
     Seller.download_stock feed fs
     = (Ok rows, delete Seller.excel_file (Seller.extractall members fs)))
  /\ (fs !! Seller.excel_file = None ->
      Seller.download_stock feed fs
      = (Raise FileNotFoundError, Seller.extractall members fs)).
Proof.
  intros Hget Hzip Hnot. unfold Seller.download_stock.
  rewrite Hget, Hzip, (extractall_other _ _ _ Hnot). split.
  - intros sheet rows -> ->. reflexivity.
  - intros ->. reflexivity.
Qed.

Lemma X12_download_stock_leftovers_witness :
  (Seller.download_stock feed_with_readme ∅).2 !! "readme.txt" = Some "hello".
Proof.
  apply (X12_download_stock_leftovers feed_with_readme ∅
           (Seller.download_stock feed_with_readme ∅).1
           (Seller.download_stock feed_with_readme ∅).2 "zip"
           [("ostatki.xls", "sheet"); ("readme.txt", "hello")]).
  - reflexivity.
  - reflexivity.
  - cbn. repeat constructor; intros H; apply list_elem_of_In in H; cbn in H;
      intuition discriminate.
  - right. left.
  - discriminate.
  - apply surjective_pairing.
Defined.

Lemma X13_download_stock_stale_witness :
  Seller.download_stock feed_without_sheet {[ "ostatki.xls" := "old" ]}
  = (Ok [watch_A],
     delete Seller.excel_file
       (Seller.extractall [("readme.txt", "hello")]
          {[ "ostatki.xls" := "old" ]}))
  /\ Seller.download_stock feed_without_sheet ∅
     = (Raise FileNotFoundError,
        Seller.extractall [("readme.txt", "hello")] ∅).
Proof.
  assert (Hnot : Seller.excel_file ∉ [("readme.txt", "hello")].*1).
  { cbn. intros H. apply list_elem_of_In in H. cbn in H.
    intuition discriminate. }
  split.
  - destruct (X13_download_stock_stale feed_without_sheet
                {[ "ostatki.xls" := "old" ]} "zip" [("readme.txt", "hello")])
      as [Hstale _]; [reflexivity | reflexivity | exact Hnot |].
    apply (Hstale "old"); reflexivity.
  - destruct (X13_download_stock_stale feed_without_sheet ∅ "zip"
                [("readme.txt", "hello")])
      as [_ Hnone]; [reflexivity | reflexivity | exact Hnot |].
    apply Hnone. reflexivity.
Defined.

(** ** What the catalogue loops return *)

Lemma last_cons_nonempty {A} (x : A) l : l <> [] -> last (x :: l) = last l.
Proof. destruct l; [congruence | reflexivity]. Qed.

Lemma walk_cons {Pg} (next : Pg -> PyVal) get_product_list k call cursor page :
  get_product_list call cursor = Ok page ->
  walk next get_product_list (S k) call cursor
  = page :: walk next get_product_list k (S call) (next page).
Proof. intros H. cbn [walk]. now rewrite H. Qed.

Lemma seller_loop_pages get_product_list fuel : forall call cursor acc l,
  while_true (Seller.get_offer_ids_turn get_product_list) fuel call
    (cursor, acc) = Some (Ok l) ->
  exists k page,
    (k < fuel)%nat
    /\ length (walk Seller.last_id get_product_list (S k) call cursor) = S k
    /\ last (walk Seller.last_id get_product_list (S k) call cursor)
       = Some page
    /\ l = acc ++ concat (map Seller.items
                            (walk Seller.last_id get_product_list (S k)
                               call cursor))
    /\ Seller.total page = VInt (Z.of_nat (length l)).
Proof.
  induction fuel as [|fuel IH]; intros call cursor acc l; [discriminate|].
  cbn [while_true]. unfold Seller.get_offer_ids_turn at 1.
  destruct (get_product_list call cursor) as [page|e] eqn:Hpage;
    [|discriminate].
  destruct (Seller.eq_len _ _) eqn:Hstop.
  - intros [= <-]. exists 0%nat, page.
    rewrite (walk_cons _ _ _ _ _ _ Hpage).
    cbn [walk length last map concat]. rewrite app_nil_r.
    repeat split; [lia|].
    unfold Seller.eq_len in Hstop.
    destruct (Seller.total page) as [|s|z]; try discriminate.
    apply Z.eqb_eq in Hstop. now subst.
  - intros Hloop. apply IH in Hloop as (k & last_page & Hk & Hlen & Hlast & -> & Htotal).
    exists (S k), last_page. rewrite (walk_cons _ _ _ _ _ _ Hpage).
    cbn [length map concat].
    rewrite last_cons_nonempty
      by (intros Hnil; rewrite Hnil in Hlen; discriminate).
    rewrite <- app_assoc in Htotal |- *.
    repeat split; [lia | congruence | exact Hlast | exact Htotal].
Qed.

(** X14. When the Ozon loop returns, it has made [k + 1] requests, each
    carrying the [last_id] of the answer before it (the first one the
    empty text); it returns the offer identifiers of all the pages it
    received, in the order received and with whatever repetitions the
    pages hold, and their number is the total the last page reports. *)
Theorem X14_seller_offer_ids get_product_list fuel offer_ids :
  Seller.get_offer_ids get_product_list fuel = Some (Ok offer_ids) ->
  exists k page,
    let pages := walk Seller.last_id get_product_list (S k) 0 (VStr "") in
    (k < fuel)%nat
    /\ length pages = S k
    /\ last pages = Some page
    /\ offer_ids = map Seller.offer_id (concat (map Seller.items pages))
    /\ Seller.total page = VInt (Z.of_nat (length offer_ids)).
Proof.
  unfold Seller.get_offer_ids.
  destruct (while_true _ fuel 0%nat (VStr "", [])) as [[l|e]|] eqn:Hloop;
    try discriminate.
  intros [= <-].
  apply seller_loop_pages in Hloop as (k & page & Hk & Hlen & Hlast & -> & Ht).
  exists k, page. cbn zeta. cbn [app] in *. rewrite length_map.
  repeat split; assumption.
Qed.

Lemma X14_seller_offer_ids_witness :
  exists k page,
    let pages := walk Seller.last_id seller_two_pages (S k) 0 (VStr "") in
    (k < 5)%nat
    /\ length pages = S k
    /\ last pages = Some page
    /\ ["A"; "B"; "C"]
       = map Seller.offer_id (concat (map Seller.items pages))
    /\ Seller.total page = VInt 3.
Proof.
  apply (X14_seller_offer_ids seller_two_pages 5 ["A"; "B"; "C"]).
  reflexivity.
Defined.

Lemma market_loop_pages get_product_list fuel : forall call cursor acc l,
  while_true (Market.get_offer_ids_turn get_product_list) fuel call
    (cursor, acc) = Some (Ok l) ->
  exists k page,
    (k < fuel)%nat
    /\ length (walk Market.nextPageToken get_product_list (S k) call cursor)
       = S k
    /\ last (walk Market.nextPageToken get_product_list (S k) call cursor)
       = Some page
    /\ l = acc ++ concat (map Market.offerMappingEntries
                            (walk Market.nextPageToken get_product_list (S k)
                               call cursor))
    /\ falsy (Market.nextPageToken page) = true
    /\ Forall (fun p => falsy (Market.nextPageToken p) = false)
         (take k (walk Market.nextPageToken get_product_list (S k)
                    call cursor)).
Proof.
  induction fuel as [|fuel IH]; intros call cursor acc l; [discriminate|].
  cbn [while_true]. unfold Market.get_offer_ids_turn at 1.
  destruct (get_product_list call cursor) as [page|e] eqn:Hpage;
    [|discriminate].
  destruct (falsy (Market.nextPageToken page)) eqn:Hstop.
  - intros [= <-]. exists 0%nat, page.
    rewrite (walk_cons _ _ _ _ _ _ Hpage).
    cbn [walk length last map concat take]. rewrite app_nil_r.
    repeat split; [lia | assumption | constructor].
  - intros Hloop.
    apply IH in Hloop
      as (k & last_page & Hk & Hlen & Hlast & -> & Htoken & Hearlier).
    exists (S k), last_page. rewrite (walk_cons _ _ _ _ _ _ Hpage).
    cbn [length map concat take].
    rewrite last_cons_nonempty
      by (intros Hnil; rewrite Hnil in Hlen; discriminate).
    rewrite <- app_assoc.
    repeat split; [lia | congruence | exact Hlast | exact Htoken |].
    constructor; assumption.
Qed.

(** X15. When the Yandex Market loop returns, it has made [k + 1] requests,
    each carrying the token of the answer before it (the first one the
    empty text); it returns the identifiers of all the pages received, in
    the order received; the last page is the first one whose token is
    empty or absent. *)
Theorem X15_market_offer_ids get_product_list fuel offer_ids :
  Market.get_offer_ids get_product_list fuel = Some (Ok offer_ids) ->
  exists k page,
    let pages := walk Market.nextPageToken get_product_list (S k) 0 (VStr "") in
    (k < fuel)%nat
    /\ length pages = S k
    /\ last pages = Some page
    /\ offer_ids
       = map Market.shopSku (concat (map Market.offerMappingEntries pages))
    /\ falsy (Market.nextPageToken page) = true
    /\ Forall (fun p => falsy (Market.nextPageToken p) = false) (take k pages).
Proof.
  unfold Market.get_offer_ids.
  destruct (while_true _ fuel 0%nat (VStr "", [])) as [[l|e]|] eqn:Hloop;
    try discriminate.
  intros [= <-].
  apply market_loop_pages in Hloop
    as (k & page & Hk & Hlen & Hlast & -> & Ht & He).
  exists k, page. cbn zeta. cbn [app] in *.
  repeat split; assumption.
Qed.

Lemma X15_market_offer_ids_witness :
  exists k page,
    let pages := walk Market.nextPageToken market_two_pages (S k) 0 (VStr "") in
    (k < 5)%nat
    /\ length pages = S k
    /\ last pages = Some page
    /\ ["A"; "B"; "C"]
       = map Market.shopSku (concat (map Market.offerMappingEntries pages))
    /\ falsy (Market.nextPageToken page) = true
    /\ Forall (fun p => falsy (Market.nextPageToken p) = false) (take k pages).
Proof.
  apply (X15_market_offer_ids market_two_pages 5 ["A"; "B"; "C"]).
  reflexivity.
Defined.

(** ** Uploads in batches *)

Lemma for_each_map {A B W} (g : A -> B) (update : B -> W -> result unit * W)
    (batches : list A) : forall w,
  for_each (fun batch => update (g batch)) batches w
  = for_each update (map g batches) w.
Proof.
  induction batches as [|batch rest IH]; intros w; [reflexivity|].
  cbn [for_each map]. destruct (update (g batch) w) as [[[]|e] w'];
    [apply IH | reflexivity].
Qed.

(** The batches of a list, for a positive size. *)
Lemma divide_batches {A} (lst : list A) (n : Z) :
  1 <= n ->
  exists batches,
    divide lst n = Ok batches
    /\ concat batches = lst
    /\ Forall (fun b => Z.of_nat (length b) <= n) batches
    /\ length batches = Z.to_nat ((Z.of_nat (length lst) + n - 1) / n).
Proof.
  intros Hn. eexists. split; [apply divide_pos; lia|]. split; [|split].
  - rewrite concat_chunks. apply take_ge.
    pose proof (chunk_count_covers (Z.of_nat (length lst)) n). nia.
  - apply Forall_forall. intros c Hc.
    apply list_elem_of_In, in_map_iff in Hc as (k & <- & _).
    rewrite length_take. lia.
  - rewrite length_map, length_seq. apply chunk_count_ceil; lia.
Qed.

Lemma scan_remnants_length {E} (entry : string -> Z -> E) watch_remnants :
  forall stocks offer_ids out unmatched,
    scan_remnants entry watch_remnants stocks offer_ids = (Ok out, unmatched) ->
    (length out + length unmatched = length stocks + length offer_ids)%nat.
Proof.
  induction watch_remnants as [|watch rest IH];
    intros stocks offer_ids out unmatched Hrun; cbn [scan_remnants] in Hrun.
  - now injection Hrun as <- <-.
  - destruct (contains _ offer_ids) eqn:Hin; [|now apply IH].
    apply contains_true in Hin.
    destruct (stock_count _); [|discriminate].
    destruct (remove_elem _ _ Hin) as (ids1 & Hrm & Hperm & _).
    rewrite Hrm in Hrun. apply IH in Hrun.
    apply Permutation_length in Hperm.
    rewrite length_app in Hrun. cbn [length] in *. lia.
Qed.

Lemma build_stocks_length {E} (entry : string -> Z -> E)
    watch_remnants offer_ids out unmatched :
  build_stocks entry watch_remnants offer_ids = (Ok out, unmatched) ->
  length out = length offer_ids.
Proof.
  intros H. apply build_stocks_inv in H as (m & Hscan & ->).
  apply scan_remnants_length in Hscan.
  rewrite length_app, length_map. cbn [length] in Hscan. lia.
Qed.

Section SellerUploads.
Import SellerRun.
Context (shop : Shop).

(** A run of write requests: those issued are the first ones of the
    list, all of them when no answer is an error, and up to the first
    refused one otherwise. *)
Lemma for_each_post batch_requests : forall w r w',
  for_each (post shop) batch_requests w = (r, w') ->
  files w' = files w
  /\ exists n,
       requests w' = requests w ++ take n batch_requests
       /\ (n <= length batch_requests)%nat
       /\ match r with
          | Ok _ =>
              n = length batch_requests
              /\ forall j rq, batch_requests !! j = Some rq ->
                   respond shop (length (requests w) + j) rq = Ok tt
          | Raise e =>
              exists j rq,
                n = S j /\ batch_requests !! j = Some rq
                /\ respond shop (length (requests w) + j) rq = Raise e
                /\ forall i rq', (i < j)%nat ->
                     batch_requests !! i = Some rq' ->
                     respond shop (length (requests w) + i) rq' = Ok tt
          end.
Proof.
  induction batch_requests as [|rq rest IH]; intros w r w' Hrun;
    cbn [for_each] in Hrun.
  - injection Hrun as <- <-. split; [reflexivity|]. exists 0%nat.
    rewrite app_nil_r. repeat split; try reflexivity. intros j rq H.
    inversion H.
  - unfold post at 1 in Hrun.
    destruct (respond shop (length (requests w)) rq) as [[]|e] eqn:Hans.
    + apply IH in Hrun as (Hfiles & n & Hreq & Hn & Hr).
      cbn [requests files] in *. split; [exact Hfiles|]. exists (S n).
      rewrite Hreq, <- app_assoc. cbn [take app length].
      split; [reflexivity|]. split; [lia|].
      rewrite length_app in Hr. cbn [length] in Hr.
      destruct r as [u|e].
      * destruct Hr as [-> Hall]. split; [reflexivity|].
        intros [|j] rq' Hj; cbn in Hj.
        -- injection Hj as <-. now rewrite Nat.add_0_r.
        -- specialize (Hall j rq' Hj).
           now replace (length (requests w) + S j)%nat
             with (length (requests w) + 1 + j)%nat by lia.
      * destruct Hr as (j & rq' & -> & Hj & Hfail & Hbefore).
        exists (S j), rq'. split; [reflexivity|]. split; [exact Hj|].
        split.
        -- now replace (length (requests w) + S j)%nat
             with (length (requests w) + 1 + j)%nat by lia.
        -- intros [|i] rq'' Hi Hlook; cbn in Hlook.
           ++ injection Hlook as <-. now rewrite Nat.add_0_r.
           ++ specialize (Hbefore i rq'' ltac:(lia) Hlook).
              now replace (length (requests w) + S i)%nat
                with (length (requests w) + 1 + i)%nat by lia.
    + injection Hrun as <- <-. cbn [requests files].
      split; [reflexivity|]. exists 1%nat. cbn [take].
      split; [reflexivity|]. split; [cbn [length]; lia|].
      exists 0%nat, rq. rewrite Nat.add_0_r.
      repeat split; try assumption. intros i rq' Hi. lia.
Qed.

Lemma for_each_update_stocks batches w :
  for_each (update_stocks shop) batches w
  = for_each (post shop) (map PostStocks batches) w.
Proof. exact (for_each_map PostStocks (post shop) batches w). Qed.

Lemma for_each_update_price batches w :
  for_each (update_price shop) batches w
  = for_each (post shop) (map PostPrices batches) w.
Proof. exact (for_each_map PostPrices (post shop) batches w). Qed.
End SellerUploads.

(** X16. When the shop accepts every write, [upload_stocks] sends the stock
    entries in batches of at most 100, in order and without loss: as many
    requests as the number of listed offers divided by 100, rounded up,
    whatever the feed.  It returns the entries with a count other than
    zero, and all the entries. *)
Theorem X16_upload_stocks shop fuel watch_remnants w offer_ids stocks unmatched :
  Seller.get_offer_ids (SellerRun.get_product_list shop) fuel
  = Some (Ok offer_ids) ->
  Seller.create_stocks watch_remnants offer_ids = (Ok stocks, unmatched) ->
  (forall k rq, SellerRun.respond shop k rq = Ok tt) ->
  exists batches,
    SellerRun.upload_stocks shop fuel watch_remnants w
    = Some (Ok (filter (fun stock => Seller.stock stock <> 0) stocks, stocks),
            {| SellerRun.requests :=
                 SellerRun.requests w ++ map SellerRun.PostStocks batches;
               SellerRun.files := SellerRun.files w |})
    /\ concat batches = stocks
    /\ Forall (fun b => (length b <= 100)%nat) batches
    /\ length batches = Z.to_nat ((Z.of_nat (length offer_ids) + 99) / 100).
Proof.
  intros Hids Hstocks Hok.
  destruct (divide_batches stocks 100 ltac:(lia))
    as (batches & Hdiv & Hcat & Hsize & Hcount).
  exists batches. unfold SellerRun.upload_stocks.
  rewrite Hids, Hstocks, Hdiv, for_each_update_stocks.
  destruct (for_each _ _ w) as [r w'] eqn:Hrun.
  apply for_each_post in Hrun as (Hfiles & n & Hreq & _ & Hr).
  destruct r as [[]|e].
  - destruct Hr as [-> _]. rewrite firstn_all in Hreq.
    split; [|split; [exact Hcat|split]].
    + destruct w' as [rq' fs']. cbn [SellerRun.requests SellerRun.files] in *.
      now subst.
    + eapply Forall_impl; [exact Hsize|]. cbn. intros b Hb. lia.
    + rewrite Hcount.
      rewrite (build_stocks_length _ _ _ _ _ Hstocks). do 2 f_equal. lia.
  - destruct Hr as (j & rq & _ & _ & Hfail & _). now rewrite Hok in Hfail.
Qed.

Lemma X16_upload_stocks_witness :
  exists batches,
    SellerRun.upload_stocks shop_accepting 5 [watch_A; watch_B] world_empty
    = Some (Ok ([Seller.stock_entry "A" 5; Seller.stock_entry "B" 100],
                [Seller.stock_entry "A" 5; Seller.stock_entry "B" 100;
                 Seller.stock_entry "C" 0]),
            {| SellerRun.requests := map SellerRun.PostStocks batches;
               SellerRun.files := ∅ |})
    /\ length batches = 1%nat.
Proof.
  destruct (X16_upload_stocks shop_accepting 5 [watch_A; watch_B] world_empty
              ["A"; "B"; "C"]
              [Seller.stock_entry "A" 5; Seller.stock_entry "B" 100;
               Seller.stock_entry "C" 0] ["C"])
    as (batches & Hrun & _ & _ & Hlen); [reflexivity | reflexivity | reflexivity |].
  exists batches. split; [exact Hrun | exact Hlen].
Defined.

(** X17. There is no rollback and no retry: when the shop refuses a batch,
    [upload_stocks] raises that error; the batches before it have been
    sent and stay sent, the batches after it are never sent. *)
Theorem X17_upload_stocks_refused shop fuel watch_remnants w offer_ids stocks
    unmatched batches j batch e :
  Seller.get_offer_ids (SellerRun.get_product_list shop) fuel
  = Some (Ok offer_ids) ->
  Seller.create_stocks watch_remnants offer_ids = (Ok stocks, unmatched) ->
  divide stocks 100 = Ok batches ->
  batches !! j = Some batch ->
  (forall i rq, (i < j)%nat ->
     SellerRun.respond shop (length (SellerRun.requests w) + i) rq = Ok tt) ->
  SellerRun.respond shop (length (SellerRun.requests w) + j)
    (SellerRun.PostStocks batch) = Raise e ->
  SellerRun.upload_stocks shop fuel watch_remnants w
  = Some (Raise e,
          {| SellerRun.requests :=
               SellerRun.requests w
               ++ map SellerRun.PostStocks (take (S j) batches);
             SellerRun.files := SellerRun.files w |}).
Proof.
  intros Hids Hstocks Hdiv Hj Hbefore Hfail.
  unfold SellerRun.upload_stocks.
  rewrite Hids, Hstocks, Hdiv, for_each_update_stocks.
  destruct (for_each _ _ w) as [r w'] eqn:Hrun.
  apply for_each_post in Hrun as (Hfiles & n & Hreq & _ & Hr).
  assert (Hjrq : map SellerRun.PostStocks batches !! j
                 = Some (SellerRun.PostStocks batch)).
  { change (map ?f ?l) with (f <$> l). now rewrite list_lookup_fmap, Hj. }
  destruct r as [[]|e'].
  - destruct Hr as [_ Hall]. rewrite (Hall _ _ Hjrq) in Hfail. discriminate.
  - destruct Hr as (j' & rq & -> & Hj' & Hfail' & Hbefore').
    assert (j' = j) as ->.
    { destruct (Nat.lt_total j' j) as [Hlt|[Heq|Hgt]]; [|exact Heq|].
      - rewrite (Hbefore _ _ Hlt) in Hfail'. discriminate.
      - rewrite (Hbefore' _ _ Hgt Hjrq) in Hfail. discriminate. }
    rewrite Hjrq in Hj'. injection Hj' as <-.
    rewrite Hfail in Hfail'. injection Hfail' as <-.
    destruct w' as [rq' fs']. cbn [SellerRun.requests SellerRun.files] in *.
    subst. change (map ?f ?l) with (f <$> l). now rewrite fmap_take.
Qed.



Lemma X17_upload_stocks_refused_witness :
  SellerRun.upload_stocks shop_refusing 5 [watch_A; watch_B] world_after_one
  = Some (Raise RequestException,
          {| SellerRun.requests :=
               [SellerRun.PostPrices [];
                SellerRun.PostStocks [Seller.stock_entry "A" 5;
                                      Seller.stock_entry "B" 100;
                                      Seller.stock_entry "C" 0]];
             SellerRun.files := ∅ |}).
Proof.
  apply (X17_upload_stocks_refused shop_refusing 5 [watch_A; watch_B]
           world_after_one ["A"; "B"; "C"]
           [Seller.stock_entry "A" 5; Seller.stock_entry "B" 100;
            Seller.stock_entry "C" 0] ["C"]
           [[Seller.stock_entry "A" 5; Seller.stock_entry "B" 100;
             Seller.stock_entry "C" 0]] 0
           [Seller.stock_entry "A" 5; Seller.stock_entry "B" 100;
            Seller.stock_entry "C" 0] RequestException);
    try reflexivity.
  intros i rq Hi. lia.
Defined.

(** ** [main] of the Yandex Market client *)

Section MarketUploads.
Import MarketRun.
Context (shop : Shop).

Lemma for_each_send batch_requests : forall w r w',
  for_each (send shop) batch_requests w = (r, w') ->
  files w' = files w /\ clock w' = clock w
  /\ exists n, requests w' = requests w ++ take n batch_requests.
Proof.
  induction batch_requests as [|rq rest IH]; intros w r w' Hrun;
    cbn [for_each] in Hrun.
  - injection Hrun as <- <-. repeat split. exists 0%nat.
    now rewrite app_nil_r.
  - unfold send at 1 in Hrun.
    destruct (respond shop (length (requests w)) rq) as [[]|e].
    + apply IH in Hrun as (Hfiles & Hclock & n & Hreq).
      cbn [requests files clock] in *. repeat split; try assumption.
      exists (S n). rewrite Hreq, <- app_assoc. reflexivity.
    + injection Hrun as <- <-. cbn [requests files clock].
      repeat split. now exists 1%nat.
Qed.

Lemma sync_campaign_requests fuel watch_remnants campaign_id warehouse_id
    w r w' :
  sync_campaign shop fuel watch_remnants campaign_id warehouse_id w
  = Some (r, w') ->
  files w' = files w
  /\ exists batches,
       requests w' = requests w ++ map (PutStocks campaign_id) batches.
Proof.
  unfold sync_campaign.
  destruct (Market.get_offer_ids _ fuel) as [[offer_ids|e]|];
    [|intros [= _ <-]|discriminate].
  2: { split; [reflexivity|]. exists []. now rewrite app_nil_r. }
  destruct (Market.create_stocks _ _ _ _ _) as [[stocks unmatched] clock'].
  destruct stocks as [stocks|e]; [|intros [= _ <-]].
  2: { split; [reflexivity|]. exists []. cbn. now rewrite app_nil_r. }
  destruct (divide stocks 2000) as [batches|e]; [|intros [= _ <-]].
  2: { split; [reflexivity|]. exists []. cbn. now rewrite app_nil_r. }
  change (update_stocks shop campaign_id)
    with (fun batch => send shop (PutStocks campaign_id batch)).
  rewrite (for_each_map (PutStocks campaign_id) (send shop)).
  destruct (for_each (send shop) _ _) as [r1 w1] eqn:Hsend.
  apply for_each_send in Hsend as (Hfiles & _ & n & Hreq).
  cbn [requests files] in *.
  change (map ?f ?l) with (f <$> l) in Hreq. rewrite <- fmap_take in Hreq.
  intros Hr. assert (w' = w1) as -> by (destruct r1; now injection Hr).
  split; [exact Hfiles|]. now exists (take n batches).
Qed.
End MarketUploads.

(** X19. However [main] of the Yandex Market client ends, the write requests it
    has issued are stock updates only: batches for the first campaign,
    then batches for the second.  It never sends a price: the coroutine
    [upload_prices] returns is never awaited. *)
Theorem X19_market_main_requests shop feed fuel
    campaign_fbs_id campaign_dbs_id warehouse_fbs_id warehouse_dbs_id w ex w' :
  MarketRun.main shop feed fuel campaign_fbs_id campaign_dbs_id
    warehouse_fbs_id warehouse_dbs_id w = Some (ex, w') ->
  exists fbs_batches dbs_batches,
    MarketRun.requests w'
    = MarketRun.requests w
      ++ map (MarketRun.PutStocks campaign_fbs_id) fbs_batches
      ++ map (MarketRun.PutStocks campaign_dbs_id) dbs_batches.
Proof.
  unfold MarketRun.main.
  destruct (Seller.download_stock feed (MarketRun.files w))
    as [[watch_remnants|e] fs]; [|intros [= _ <-]].
  2: { exists [], []. cbn. now rewrite app_nil_r. }
  destruct (MarketRun.sync_campaign shop fuel watch_remnants campaign_fbs_id
              warehouse_fbs_id _) as [[r1 w1]|] eqn:Hfbs; [|discriminate].
  apply sync_campaign_requests in Hfbs as (_ & b1 & Hreq1).
  cbn [MarketRun.requests] in Hreq1.
  destruct r1 as [[]|e]; [|intros [= _ <-]].
  2: { exists b1, []. cbn. now rewrite app_nil_r. }
  destruct (MarketRun.sync_campaign shop fuel watch_remnants campaign_dbs_id
              warehouse_dbs_id w1) as [[r2 w2]|] eqn:Hdbs; [|discriminate].
  apply sync_campaign_requests in Hdbs as (_ & b2 & Hreq2).
  intros Hr. assert (w' = w2) as -> by (destruct r2; now injection Hr).
  exists b1, b2. now rewrite Hreq2, Hreq1, <- app_assoc.
Qed.

Lemma X19_market_main_requests_witness :
  exists fbs_batches dbs_batches,
    [MarketRun.PutStocks "fbs"
       [Market.stock_entry "w1" "2024-05-01T10:00:00Z" "A" 5;
        Market.stock_entry "w1" "2024-05-01T10:00:00Z" "B" 100;
        Market.stock_entry "w1" "2024-05-01T10:00:00Z" "C" 0];
     MarketRun.PutStocks "dbs"
       [Market.stock_entry "w2" "2024-05-01T10:00:01Z" "A" 5;
        Market.stock_entry "w2" "2024-05-01T10:00:01Z" "B" 100;
        Market.stock_entry "w2" "2024-05-01T10:00:01Z" "C" 0]]
    = [] ++ map (MarketRun.PutStocks "fbs") fbs_batches
         ++ map (MarketRun.PutStocks "dbs") dbs_batches.
Proof.
  apply (X19_market_main_requests market_accepting feed_good 5
           "fbs" "dbs" "w1" "w2" market_world_empty (Returned None)
           {| MarketRun.requests :=
                [MarketRun.PutStocks "fbs"
                   [Market.stock_entry "w1" "2024-05-01T10:00:00Z" "A" 5;
                    Market.stock_entry "w1" "2024-05-01T10:00:00Z" "B" 100;
                    Market.stock_entry "w1" "2024-05-01T10:00:00Z" "C" 0];
                 MarketRun.PutStocks "dbs"
                   [Market.stock_entry "w2" "2024-05-01T10:00:01Z" "A" 5;
                    Market.stock_entry "w2" "2024-05-01T10:00:01Z" "B" 100;
                    Market.stock_entry "w2" "2024-05-01T10:00:01Z" "C" 0]];
              MarketRun.files := ∅; MarketRun.clock := 2 |}).
  vm_compute. reflexivity.
Defined.

(** X20. An exception of [download_stock] ends the two programs differently.
    The Yandex Market [main] calls it outside its [try] block: the
    exception is not caught, and no request has been made, not even for
    the catalogue.  The Ozon [main] calls it inside, after the catalogue
    has been listed: the exception is caught and [main] returns, without
    any write request. *)
Theorem X20_download_failure feed fs fs' e :
  Seller.download_stock feed fs = (Raise e, fs') ->
  (forall shop fuel campaign_fbs_id campaign_dbs_id warehouse_fbs_id
          warehouse_dbs_id sent clock,
     MarketRun.main shop feed fuel campaign_fbs_id campaign_dbs_id
       warehouse_fbs_id warehouse_dbs_id
       {| MarketRun.requests := sent; MarketRun.files := fs;
          MarketRun.clock := clock |}
     = Some (Uncaught e,
             {| MarketRun.requests := sent; MarketRun.files := fs';
                MarketRun.clock := clock |}))
  /\ (forall shop fuel offer_ids sent,
        Seller.get_offer_ids (SellerRun.get_product_list shop) fuel
        = Some (Ok offer_ids) ->
        SellerRun.main shop feed fuel
          {| SellerRun.requests := sent; SellerRun.files := fs |}
        = Some (Returned (Some e),
                {| SellerRun.requests := sent; SellerRun.files := fs' |})).
Proof.
  intros Hdown. split.
  - intros. unfold MarketRun.main. cbn [MarketRun.files MarketRun.requests
      MarketRun.clock]. now rewrite Hdown.
  - intros shop fuel ids sent Hids.
    unfold SellerRun.main, SellerRun.main_try. rewrite Hids.
    cbn [SellerRun.files SellerRun.requests]. now rewrite Hdown.
Qed.

Lemma X20_download_failure_witness :
  MarketRun.main market_accepting feed_unreadable 0 "fbs" "dbs" "w1" "w2"
    market_world_empty
  = Some (Uncaught ValueError,
          {| MarketRun.requests := [];
             MarketRun.files := {[ "ostatki.xls" := "garbage" ]};
             MarketRun.clock := 0 |})
  /\ SellerRun.main shop_accepting feed_unreadable 5 world_empty
     = Some (Returned (Some ValueError),
             {| SellerRun.requests := [];
                SellerRun.files := {[ "ostatki.xls" := "garbage" ]} |}).
Proof.
  destruct (X20_download_failure feed_unreadable ∅
              {[ "ostatki.xls" := "garbage" ]} ValueError)
    as [Hmarket Hseller]; [vm_compute; reflexivity|].
  split.
  - apply Hmarket.
  - apply (Hseller shop_accepting 5%nat ["A"; "B"; "C"]). reflexivity.
Defined.

(** X21. [upload_prices] of the Ozon client lists the catalogue afresh, so that
    its price entries are those of the listed records; when the shop
    accepts every write it sends them in batches of at most 1000, in
    order and without loss, after the requests already made, and returns
    them. *)
Theorem X21_upload_prices shop fuel watch_remnants w offer_ids prices :
  Seller.get_offer_ids (SellerRun.get_product_list shop) fuel
  = Some (Ok offer_ids) ->
  Seller.create_prices watch_remnants offer_ids = Ok prices ->
  (forall k rq, SellerRun.respond shop k rq = Ok tt) ->
  exists batches,
    SellerRun.upload_prices shop fuel watch_remnants w
    = Some (Ok prices,
            {| SellerRun.requests :=
                 SellerRun.requests w ++ map SellerRun.PostPrices batches;
               SellerRun.files := SellerRun.files w |})
    /\ concat batches = prices
    /\ Forall (fun b => (length b <= 1000)%nat) batches
    /\ map Seller.price_offer_id prices
       = map code_of
           (filter (fun watch => code_of watch ∈ offer_ids) watch_remnants).
Proof.
  intros Hids Hprices Hok.
  destruct (divide_batches prices 1000 ltac:(lia))
    as (batches & Hdiv & Hcat & Hsize & _).
  exists batches. unfold SellerRun.upload_prices.
  rewrite Hids, Hprices, Hdiv, for_each_update_price.
  destruct (for_each _ _ w) as [r w'] eqn:Hrun.
  apply for_each_post in Hrun as (Hfiles & n & Hreq & _ & Hr).
  destruct r as [[]|e].
  - destruct Hr as [-> _]. rewrite firstn_all in Hreq.
    split; [|split; [exact Hcat|split]].
    + destruct w' as [rq' fs']. cbn [SellerRun.requests SellerRun.files] in *.
      now subst.
    + eapply Forall_impl; [exact Hsize|]. cbn. intros b Hb. lia.
    + apply (priced_keys _ _ seller_price_key).
      now apply build_prices_rows.
  - destruct Hr as (j & rq & _ & _ & Hfail & _). now rewrite Hok in Hfail.
Qed.

Lemma X21_upload_prices_witness :
  exists batches prices,
    SellerRun.upload_prices shop_accepting 5 [watch_A; watch_B] world_empty
    = Some (Ok prices,
            {| SellerRun.requests := map SellerRun.PostPrices batches;
               SellerRun.files := ∅ |})
    /\ concat batches = prices
    /\ map Seller.price_offer_id prices = ["A"; "B"].
Proof.
  destruct (Seller.create_prices [watch_A; watch_B] ["A"; "B"; "C"])
    as [prices|] eqn:Hprices; [|discriminate Hprices].
  destruct (X21_upload_prices shop_accepting 5 [watch_A; watch_B] world_empty
              ["A"; "B"; "C"] prices)
    as (batches & Hrun & Hcat & _ & Hkeys);
    [reflexivity | exact Hprices | reflexivity |].
  exists batches, prices. split; [exact Hrun|]. split; [exact Hcat|].
  exact Hkeys.
Defined.
